(** * Escrowise admin core: permissions, audit trail and admin route handlers

    A shallow embedding of

    - [src/lib/adminPermissions.ts]: the permission catalog,
      [hasAdminPermission], [getAdminPermissions], [requireAdminPermission]
      and [logAdminAction];
    - the admin route handlers that mutate storage: the transaction
      handlers ([src/app/api/admin/transactions/[id]/route.ts]), the user
      handlers ([/api/admin/users/[id]], in [src/unnamed/part_002]), the
      generic data handlers ([/api/admin/data/[table]/[id]], in
      [src/unnamed/part_003]) and the [user_profiles] handlers (the route
      file that follows the library in [src/lib/adminPermissions.ts]);
    - the transaction details handler, the transaction creation handler
      ([src/unnamed/part_005]) and the verification submission handler.

    The handlers are asynchronous functions that talk to a storage client
    ([supabaseAdmin]).  They are embedded in a state-and-exception monad
    over a store of tables and a log of the storage calls and console
    diagnostics that were made.  Whatever the handlers obtain from outside
    the repository (session, request body, clock, storage failures, the
    platform's upper-casing of text that is not ASCII) is a field of the
    environment [Env.t]. *)

From stdpp Require Import gmap strings list fin_maps.
From Stdlib Require Import ZArith Ascii.

Set Warnings "-register-all".

(** ** JSON-like values *)

(** A row of a table, a request body and a JSON object are all finite maps
    from column names to values. *)
Inductive value :=
| VNull
| VBool (b : bool)
| VNum (n : Z)
| VStr (s : string)
| VArr (l : list value)
| VObj (o : gmap string value).

Abbreviation Row := (gmap string value).

(** JavaScript truthiness of a property read; a missing property reads as
    [undefined]. *)
Definition truthy (v : option value) : bool :=
  match v with
  | None | Some VNull => false
  | Some (VBool b) => b
  | Some (VNum n) => negb (n =? 0)%Z
  | Some (VStr s) => negb (String.eqb s "")
  | Some (VArr _) | Some (VObj _) => true
  end.

(** [v === s] for a string literal [s]. *)
Definition is_str (s : string) (v : option value) : bool :=
  match v with
  | Some (VStr s') => String.eqb s' s
  | _ => false
  end.

(** [a || b || null] on header values: the empty string is falsy. *)
Definition js_or (a b : option string) : option string :=
  match a with
  | Some s => if String.eqb s "" then b else a
  | None => b
  end.

Definition string_or_null (a : option string) : value :=
  match a with Some s => VStr s | None => VNull end.

Definition row_or_null (a : option Row) : value :=
  match a with Some r => VObj r | None => VNull end.

(** ** String helpers used by the catalog *)

Definition upper_ascii (c : ascii) : ascii :=
  let n := nat_of_ascii c in
  if (97 <=? n)%nat && (n <=? 122)%nat then ascii_of_nat (n - 32) else c.

(** Text is a string of bytes; a byte below 128 is an ASCII character. *)
Fixpoint ascii_only (s : string) : bool :=
  match s with
  | EmptyString => true
  | String c r => (nat_of_ascii c <? 128)%nat && ascii_only r
  end.

(** [String.prototype.toUpperCase] on a string of ASCII characters, where
    it changes the letters a to z and nothing else.  The program applies it
    to its own ASCII literals, the values of [ADMIN_PERMISSIONS] and the
    names of the allowed tables, and this is the function for those.  On
    other text the platform's upper-casing differs (it is Unicode's: a
    dotless i becomes I); the role read from storage is such text and goes
    through [toUpperCase] below. *)
Fixpoint toUpperCase_ascii (s : string) : string :=
  match s with
  | EmptyString => EmptyString
  | String c r => String (upper_ascii c) (toUpperCase_ascii r)
  end.

(** [s.replace(/_/g, " ")]. *)
Fixpoint replace_underscores (s : string) : string :=
  match s with
  | EmptyString => EmptyString
  | String c r =>
      String (if Ascii.eqb c "_" then " "%char else c) (replace_underscores r)
  end.

(** [s.split(sep)] for a one-character separator. *)
Fixpoint split (sep : ascii) (s : string) : list string :=
  match s with
  | EmptyString => [EmptyString]
  | String c r =>
      if Ascii.eqb c sep then EmptyString :: split sep r
      else match split sep r with
           | [] => [String c EmptyString]
           | h :: t => String c h :: t
           end
  end.

(** [parts[i] || d]: a missing or empty component falls back to [d]. *)
Definition nth_or (parts : list string) (i : nat) (d : string) : string :=
  match parts !! i with
  | Some s => if String.eqb s "" then d else s
  | None => d
  end.

(** ** The permission catalog ([adminPermissions.ts]) *)

Module AdminPermission.
Record t := mk {
  id : string;
  name : string;
  description : string;
  resource : string;
  action : string
}.
End AdminPermission.

Module AdminRole.
Record t := mk {
  id : string;
  name : string;
  description : string;
  permissions : list AdminPermission.t
}.
End AdminRole.

Module ADMIN_PERMISSIONS.
Definition VIEW_TRANSACTIONS := "view_transactions".
Definition EDIT_TRANSACTIONS := "edit_transactions".
Definition CANCEL_TRANSACTIONS := "cancel_transactions".
Definition DELETE_TRANSACTIONS := "delete_transactions".
Definition VIEW_USERS := "view_users".
Definition EDIT_USERS := "edit_users".
Definition DEACTIVATE_USERS := "deactivate_users".
Definition VERIFY_USERS := "verify_users".
Definition VIEW_DATA := "view_data".
Definition EDIT_DATA := "edit_data".
Definition DELETE_DATA := "delete_data".
Definition VIEW_AUDIT_LOGS := "view_audit_logs".
Definition MANAGE_SETTINGS := "manage_settings".
Definition VIEW_ANALYTICS := "view_analytics".
Definition MANAGE_DISPUTES := "manage_disputes".

(** [Object.values(ADMIN_PERMISSIONS)], in declaration order. *)
Definition values : list string :=
  [ VIEW_TRANSACTIONS; EDIT_TRANSACTIONS; CANCEL_TRANSACTIONS;
    DELETE_TRANSACTIONS;
    VIEW_USERS; EDIT_USERS; DEACTIVATE_USERS; VERIFY_USERS;
    VIEW_DATA; EDIT_DATA; DELETE_DATA;
    VIEW_AUDIT_LOGS; MANAGE_SETTINGS; VIEW_ANALYTICS; MANAGE_DISPUTES ].
End ADMIN_PERMISSIONS.

(** The function mapped over every permission list of [ADMIN_ROLES].  The
    lists hold values of [ADMIN_PERMISSIONS], ASCII literals, so that the
    upper-casing in [name] is [toUpperCase_ascii]. *)
Definition describe (permission : string) : AdminPermission.t :=
  AdminPermission.mk
    permission
    (toUpperCase_ascii (replace_underscores permission))
    ("Permission to " +:+ replace_underscores permission)
    (nth_or (split "_" permission) 1 "system")
    (nth_or (split "_" permission) 0 "manage").

Definition SUPER_ADMIN : AdminRole.t :=
  AdminRole.mk "super_admin" "Super Admin"
    "Full access to all admin functions"
    (map describe ADMIN_PERMISSIONS.values).

Definition ADMIN : AdminRole.t :=
  AdminRole.mk "admin" "Admin"
    "Standard admin access with most permissions"
    (map describe
       [ ADMIN_PERMISSIONS.VIEW_TRANSACTIONS;
         ADMIN_PERMISSIONS.EDIT_TRANSACTIONS;
         ADMIN_PERMISSIONS.CANCEL_TRANSACTIONS;
         ADMIN_PERMISSIONS.VIEW_USERS;
         ADMIN_PERMISSIONS.EDIT_USERS;
         ADMIN_PERMISSIONS.DEACTIVATE_USERS;
         ADMIN_PERMISSIONS.VERIFY_USERS;
         ADMIN_PERMISSIONS.VIEW_DATA;
         ADMIN_PERMISSIONS.EDIT_DATA;
         ADMIN_PERMISSIONS.VIEW_AUDIT_LOGS;
         ADMIN_PERMISSIONS.VIEW_ANALYTICS;
         ADMIN_PERMISSIONS.MANAGE_DISPUTES ]).

Definition MODERATOR : AdminRole.t :=
  AdminRole.mk "moderator" "Moderator"
    "Limited admin access for content moderation"
    (map describe
       [ ADMIN_PERMISSIONS.VIEW_TRANSACTIONS;
         ADMIN_PERMISSIONS.VIEW_USERS;
         ADMIN_PERMISSIONS.EDIT_USERS;
         ADMIN_PERMISSIONS.VERIFY_USERS;
         ADMIN_PERMISSIONS.VIEW_ANALYTICS;
         ADMIN_PERMISSIONS.MANAGE_DISPUTES ]).

(** [ADMIN_ROLES] is indexed by the upper-cased role name.  The keys
    inherited from [Object.prototype] all contain lower-case letters and are
    never the result of [String.prototype.toUpperCase], so the own keys are
    the whole map. *)
Definition ADMIN_ROLES : gmap string AdminRole.t :=
  {[ "SUPER_ADMIN" := SUPER_ADMIN; "ADMIN" := ADMIN; "MODERATOR" := MODERATOR ]}.

(** [role.permissions.some(p => p.id === permission)]. *)
Definition role_grants (role : AdminRole.t) (permission : string) : bool :=
  existsb (fun p => String.eqb (AdminPermission.id p) permission)
          (AdminRole.permissions role).

(** ** Storage, diagnostics and the handler monad *)

(** Modelled from the spec: the storage client [supabaseAdmin] and the
    engine behind it are not part of the repository.  The spec assumes
    atomic single-row operations keyed by id; the store below has that and
    nothing more.  Every table is the list of its rows, in insertion order.
    A row is addressed by the text in its [id] column, as the handlers do
    with [.eq("id", id)]. *)
Abbreviation DB := (gmap string (list Row)).

Definition rows_of (d : DB) (table : string) : list Row :=
  default [] (d !! table).

Definition has_id (id : string) (r : Row) : bool := is_str id (r !! "id").

(** [.single()]: exactly one row, or an error. *)
Definition single (rows : list Row) : option Row :=
  match rows with
  | [r] => Some r
  | _ => None
  end.

Definition db_select (d : DB) (table id : string) : option Row :=
  single (List.filter (has_id id) (rows_of d table)).

(** The row after an update: the columns of the payload override the
    stored ones. *)
Definition patched (payload r : Row) : Row := payload ∪ r.

Definition db_update (d : DB) (table id : string) (payload : Row) : DB :=
  alter (map (fun r => if has_id id r then patched payload r else r)) table d.

Definition db_delete (d : DB) (table id : string) : DB :=
  alter (List.filter (fun r => negb (has_id id r))) table d.

Definition db_insert (d : DB) (table : string) (r : Row) : DB :=
  <[table := rows_of d table ++ [r]]> d.

(** What was done to the outside world, in order: storage calls with their
    results, and console diagnostics. *)
Inductive event :=
| EvSelect (table id : string) (found : option Row)
| EvUpdate (table id : string) (payload : Row) (updated : option Row)
| EvUpdateAll (table id : string) (payload : Row) (updated : option (list Row))
| EvDelete (table id : string) (ok : bool)
| EvInsert (table : string) (row : Row) (ok : bool)
| EvConsole (level message : string).

Record State := mkState { db : DB; trace : list event }.

Definition log (ev : event) (s : State) : State :=
  mkState (db s) (trace s ++ [ev]).

(** How a storage call ends: it runs against the store, it resolves with an
    [error] of the given message (the handlers read it from [{ data, error }]),
    or the awaited promise rejects (the handlers wrap the calls in [try]). *)
Inductive outcome := Proceed | Fail (message : string) | Throw.

(** The [{ data, error }] object a storage call resolves to. *)
Module Reply.
Record t (A : Type) := mk { data : option A; error : option string }.
Arguments mk {A}.
Arguments data {A}.
Arguments error {A}.
End Reply.

Module NextResponse.
Record t := json { body : value; status : nat }.
End NextResponse.

Definition error_body (message : string) : value :=
  VObj {[ "error" := VStr message ]}.

(** Everything a handler receives from outside this repository:
    [requireAdmin] ([@/lib/adminAuth]) and the session are not in the
    sources, so their results are inputs; a request body is a JSON object. *)
Module Env.
Record t := mk {
  (** [await requireAdmin()]: a refusal, or the admin id *)
  auth : NextResponse.t + string;
  (** [supabaseAdmin.auth.getUser()]: the id of [user], if any *)
  session_user : option string;
  (** [await req.json()]: the parsed object; [None] when parsing throws *)
  body : option Row;
  (** [new Date().toISOString()] *)
  now : string;
  x_forwarded_for : option string;
  x_real_ip : option string;
  user_agent : option string;
  (** outcomes of the storage calls, by call site *)
  role_lookup : outcome;
  entity_read : outcome;
  persist : outcome;
  audit_append : outcome;
  (** [String.prototype.toUpperCase] of the platform on text that is not
      ASCII: Unicode's upper-casing, which is not part of the sources and
      is an input as well *)
  unicode_upper : string -> string
}.
End Env.

(** [s.toUpperCase()] for text from outside the program. *)
Definition toUpperCase (e : Env.t) (s : string) : string :=
  if ascii_only s then toUpperCase_ascii s else Env.unicode_upper e s.

Inductive result (A : Type) := Ok (a : A) | Thrown.
Arguments Ok {A}.
Arguments Thrown {A}.

(** State passing with exceptions; what was written before a throw stays
    written. *)
Definition M (A : Type) : Type := State -> result A * State.

#[global] Instance M_ret : MRet M := fun A a s => (Ok a, s).

#[global] Instance M_bind : MBind M := fun A B f m s =>
  match m s with
  | (Ok a, s') => f a s'
  | (Thrown, s') => (Thrown, s')
  end.

Definition throw {A} : M A := fun s => (Thrown, s).

(** [try { m } catch { h }] *)
Definition try_catch {A} (m h : M A) : M A := fun s =>
  match m s with
  | (Ok a, s') => (Ok a, s')
  | (Thrown, s') => h s'
  end.

Definition console (level message : string) : M unit := fun s =>
  (Ok tt, log (EvConsole level message) s).

(** The message of the error that [.single()] reports when the number of
    rows is not one; it is the storage client's, not this repository's. *)
Definition not_single : string :=
  "JSON object requested, multiple (or no) rows returned".

(** The columns a [select] asks for; [None] is ["*"]. *)
Definition project (columns : option (list string)) (r : Row) : Row :=
  match columns with
  | None => r
  | Some cs => filter (fun kv => kv.1 ∈ cs) r
  end.

(** Modelled from the spec: the storage client's
    [.from(table).select(columns).eq("id", id).single()]. *)
Definition select_single (o : outcome) (table : string)
    (columns : option (list string)) (id : string) : M (Reply.t Row) := fun s =>
  match o with
  | Throw => (Thrown, log (EvSelect table id None) s)
  | Fail msg => (Ok (Reply.mk None (Some msg)), log (EvSelect table id None) s)
  | Proceed =>
      match db_select (db s) table id with
      | Some r =>
          let r' := project columns r in
          (Ok (Reply.mk (Some r') None), log (EvSelect table id (Some r')) s)
      | None =>
          (Ok (Reply.mk None (Some not_single)), log (EvSelect table id None) s)
      end
  end.

(** Modelled from the spec: the storage client's
    [.from(table).update(payload).eq("id", id).select().single()], the
    atomic single-row update: one row is updated and returned, or nothing is
    written. *)
Definition update_single (o : outcome) (table id : string) (payload : Row)
    : M (Reply.t Row) := fun s =>
  match o with
  | Throw => (Thrown, log (EvUpdate table id payload None) s)
  | Fail msg =>
      (Ok (Reply.mk None (Some msg)), log (EvUpdate table id payload None) s)
  | Proceed =>
      match db_select (db s) table id with
      | Some r =>
          let r' := patched payload r in
          (Ok (Reply.mk (Some r') None),
           mkState (db_update (db s) table id payload)
                   (trace s ++ [EvUpdate table id payload (Some r')]))
      | None =>
          (Ok (Reply.mk None (Some not_single)),
           log (EvUpdate table id payload None) s)
      end
  end.

(** Modelled from the spec: the storage client's
    [.from(table).update(payload).eq("id", id).select()]: every matching row
    is updated; the rows come back as an array. *)
Definition update_all (o : outcome) (table id : string) (payload : Row)
    : M (Reply.t (list Row)) := fun s =>
  match o with
  | Throw => (Thrown, log (EvUpdateAll table id payload None) s)
  | Fail msg =>
      (Ok (Reply.mk None (Some msg)), log (EvUpdateAll table id payload None) s)
  | Proceed =>
      let rs := map (patched payload)
                    (List.filter (has_id id) (rows_of (db s) table)) in
      (Ok (Reply.mk (Some rs) None),
       mkState (db_update (db s) table id payload)
               (trace s ++ [EvUpdateAll table id payload (Some rs)]))
  end.

(** Modelled from the spec: the storage client's
    [.from(table).delete().eq("id", id)]. *)
Definition delete_rows (o : outcome) (table id : string) : M (Reply.t unit) :=
  fun s =>
  match o with
  | Throw => (Thrown, log (EvDelete table id false) s)
  | Fail msg => (Ok (Reply.mk None (Some msg)), log (EvDelete table id false) s)
  | Proceed =>
      (Ok (Reply.mk None None),
       mkState (db_delete (db s) table id)
               (trace s ++ [EvDelete table id true]))
  end.

(** Modelled from the spec: the storage client's
    [.from(table).insert(row)], the durable append; the columns the
    database fills in by itself are not modelled. *)
Definition insert_row (o : outcome) (table : string) (row : Row)
    : M (Reply.t unit) := fun s =>
  match o with
  | Throw => (Thrown, log (EvInsert table row false) s)
  | Fail msg => (Ok (Reply.mk None (Some msg)), log (EvInsert table row false) s)
  | Proceed =>
      (Ok (Reply.mk None None),
       mkState (db_insert (db s) table row)
               (trace s ++ [EvInsert table row true]))
  end.

(** [await req.json()] *)
Definition req_json (e : Env.t) : M Row :=
  match Env.body e with
  | Some o => mret o
  | None => throw
  end.

(** ** Authorization ([adminPermissions.ts]) *)

(** [v.toUpperCase()]: a [TypeError] unless [v] is a string. *)
Definition upper_of (e : Env.t) (v : option value) : M string :=
  match v with
  | Some (VStr s) => mret (toUpperCase e s)
  | _ => throw
  end.

Section Guard.
(** The role table the guard consults; [ADMIN_ROLES] in the program. *)
Variable roles : gmap string AdminRole.t.

Definition hasAdminPermissionIn (e : Env.t) (adminId permission : string)
    : M bool :=
  try_catch
    (r ← select_single (Env.role_lookup e) "profiles" (Some ["role"]) adminId;
     match Reply.error r, Reply.data r with
     | None, Some profile =>
         if is_str "admin" (profile !! "role") then mret true
         else
           key ← upper_of e (profile !! "role");
           match roles !! key with
           | None => mret false
           | Some role => mret (role_grants role permission)
           end
     | _, _ => mret false
     end)
    (console "error" "Error checking admin permission:";; mret false).

Definition getAdminPermissionsIn (e : Env.t) (adminId : string)
    : M (list string) :=
  try_catch
    (r ← select_single (Env.role_lookup e) "profiles" (Some ["role"]) adminId;
     match Reply.error r, Reply.data r with
     | None, Some profile =>
         if is_str "admin" (profile !! "role")
         then mret ADMIN_PERMISSIONS.values
         else
           key ← upper_of e (profile !! "role");
           match roles !! key with
           | None => mret []
           | Some role =>
               mret (map AdminPermission.id (AdminRole.permissions role))
           end
     | _, _ => mret []
     end)
    (console "error" "Error getting admin permissions:";; mret []).
End Guard.

Definition hasAdminPermission := hasAdminPermissionIn ADMIN_ROLES.
Definition getAdminPermissions := getAdminPermissionsIn ADMIN_ROLES.

Definition requireAdminPermission (e : Env.t) (adminId permission : string)
    : M bool :=
  hasPermission ← hasAdminPermission e adminId permission;
  (if negb hasPermission
   then console "warn"
          ("Admin " +:+ adminId +:+ " attempted to access " +:+ permission
           +:+ " without permission")
   else mret tt);;
  mret hasPermission.

(** ** The audit trail *)

Definition audit_row (action entityType : string) (entityId : option string)
    (oldValue newValue : value) (performedBy : string)
    (ipAddress userAgent : value) : Row :=
  {[ "action" := VStr action;
     "entity_type" := VStr entityType;
     "entity_id" := string_or_null entityId;
     "old_value" := oldValue;
     "new_value" := newValue;
     "performed_by" := VStr performedBy;
     "ip_address" := ipAddress;
     "user_agent" := userAgent ]}.

Definition logAdminAction (e : Env.t) (adminId action entityType : string)
    (entityId : option string) (oldValue newValue ipAddress userAgent : value)
    : M unit :=
  try_catch
    (insert_row (Env.audit_append e) "audit_logs"
       (audit_row action entityType entityId oldValue newValue adminId
                  ipAddress userAgent);;
     mret tt)
    (console "error" "Error logging admin action:").

(** [req.headers.get("x-forwarded-for") || req.headers.get("x-real-ip") || d] *)
Definition ip_address (e : Env.t) (d : option string) : value :=
  string_or_null (js_or (js_or (Env.x_forwarded_for e) (Env.x_real_ip e)) d).

(** [req.headers.get("user-agent") || d] *)
Definition user_agent (e : Env.t) (d : option string) : value :=
  string_or_null (js_or (Env.user_agent e) d).

Definition respond (body : value) (status : nat) : M NextResponse.t :=
  mret (NextResponse.json body status).

(** An error response, [NextResponse.json({ error: message }, { status })]. *)
Definition rejection (message : string) (status : nat) : NextResponse.t :=
  NextResponse.json (error_body message) status.

Definition refuse (message : string) (status : nat) : M NextResponse.t :=
  mret (rejection message status).

(** ** Transaction handlers ([api/admin/transactions/[id]/route.ts]) *)

(** The lines every transaction handler opens with: [requireAdmin], then
    [requireAdminPermission] for the handler's permission, answered with 403
    when it is refused; [action] is the rest of the handler. *)
Definition gated (e : Env.t) (permission : string)
    (action : string -> M NextResponse.t) : M NextResponse.t :=
  match Env.auth e with
  | inl response => mret response
  | inr adminId =>
    hasPermission ← requireAdminPermission e adminId permission;
    if negb hasPermission then refuse "Insufficient permissions" 403
    else action adminId
  end.

Module Transactions.

(** The [try] block of [PUT], entered once the guard has let
    [adminId] through. *)
Definition update (e : Env.t) (id adminId : string) : M NextResponse.t :=
  try_catch
    (updateData ← req_json e;
     r ← select_single (Env.entity_read e) "escrow_transactions" None id;
     match Reply.data r with
     | None => refuse "Transaction not found" 404
     | Some currentTransaction =>
       u ← update_single (Env.persist e) "escrow_transactions" id
             (<["updated_at" := VStr (Env.now e)]> updateData);
       match Reply.error u with
       | Some message => refuse message 500
       | None =>
         logAdminAction e adminId "UPDATE_TRANSACTION" "transaction"
           (Some id) (VObj currentTransaction)
           (row_or_null (Reply.data u))
           (ip_address e None) (user_agent e None);;
         respond (row_or_null (Reply.data u)) 200
       end
     end)
    (refuse "Invalid request data" 400).

(** [PUT /api/admin/transactions/[id]] *)
Definition PUT (e : Env.t) (id : string) : M NextResponse.t :=
  gated e ADMIN_PERMISSIONS.EDIT_TRANSACTIONS (update e id).

(** The [try] block of [DELETE]. *)
Definition cancel (e : Env.t) (id adminId : string) : M NextResponse.t :=
  try_catch
    (r ← select_single (Env.entity_read e) "escrow_transactions" None id;
     match Reply.data r with
     | None => refuse "Transaction not found" 404
     | Some currentTransaction =>
       if is_str "completed" (currentTransaction !! "status")
       then refuse "Cannot cancel completed transaction" 400
       else
         u ← update_single (Env.persist e) "escrow_transactions" id
               {[ "status" := VStr "cancelled";
                  "updated_at" := VStr (Env.now e) ]};
         match Reply.error u with
         | Some message => refuse message 500
         | None =>
           logAdminAction e adminId "CANCEL_TRANSACTION" "transaction"
             (Some id) (VObj currentTransaction)
             (row_or_null (Reply.data u))
             (ip_address e None) (user_agent e None);;
           respond
             (VObj {[ "message" :=
                        VStr "Transaction cancelled successfully";
                      "transaction" := row_or_null (Reply.data u) ]})
             200
         end
     end)
    (refuse "Failed to cancel transaction" 500).

(** [DELETE /api/admin/transactions/[id]] *)
Definition DELETE (e : Env.t) (id : string) : M NextResponse.t :=
  gated e ADMIN_PERMISSIONS.CANCEL_TRANSACTIONS (cancel e id).

End Transactions.

(** ** User handlers ([api/admin/users/[id]], [src/unnamed/part_002]) *)

Module Users.

(** [PUT /api/admin/users/[id]] *)
Definition PUT (e : Env.t) (id : string) : M NextResponse.t :=
  match Env.auth e with
  | inl response => mret response
  | inr _ =>
    match Env.session_user e with
    | None => refuse "Unauthorized" 401
    | Some user =>
      try_catch
        (updateData ← req_json e;
         r ← select_single (Env.entity_read e) "profiles" None id;
         match Reply.data r with
         | None => refuse "User not found" 404
         | Some currentUser =>
           if String.eqb user id && truthy (updateData !! "role")
              && negb (is_str "admin" (updateData !! "role"))
           then refuse "Cannot change your own admin role" 400
           else
             u ← update_single (Env.persist e) "profiles" id
                   (<["updated_at" := VStr (Env.now e)]> updateData);
             match Reply.error u with
             | Some message => refuse message 500
             | None =>
               insert_row (Env.audit_append e) "audit_logs"
                 (audit_row "UPDATE_USER" "user" (Some id)
                    (VObj currentUser) (row_or_null (Reply.data u)) user
                    (ip_address e (Some "unknown"))
                    (user_agent e (Some "unknown")));;
               respond (row_or_null (Reply.data u)) 200
             end
         end)
        (refuse "Invalid request data" 400)
    end
  end.

(** [DELETE /api/admin/users/[id]] *)
Definition DELETE (e : Env.t) (id : string) : M NextResponse.t :=
  match Env.auth e with
  | inl response => mret response
  | inr _ =>
    match Env.session_user e with
    | None => refuse "Unauthorized" 401
    | Some user =>
      try_catch
        (if String.eqb user id
         then refuse "Cannot deactivate your own account" 400
         else
           r ← select_single (Env.entity_read e) "profiles" None id;
           match Reply.data r with
           | None => refuse "User not found" 404
           | Some currentUser =>
             u ← update_single (Env.persist e) "profiles" id
                   {[ "status" := VStr "inactive";
                      "updated_at" := VStr (Env.now e) ]};
             match Reply.error u with
             | Some message => refuse message 500
             | None =>
               insert_row (Env.audit_append e) "audit_logs"
                 (audit_row "DEACTIVATE_USER" "user" (Some id)
                    (VObj currentUser) (row_or_null (Reply.data u)) user
                    (ip_address e (Some "unknown"))
                    (user_agent e (Some "unknown")));;
               respond
                 (VObj {[ "message" := VStr "User deactivated successfully";
                          "user" := row_or_null (Reply.data u) ]})
                 200
             end
           end)
        (refuse "Failed to deactivate user" 500)
    end
  end.

End Users.

(** ** Generic data handlers ([api/admin/data/[table]/[id]],
    [src/unnamed/part_003]) *)

Module Data.

Definition allowedTables : list string :=
  [ "profiles"; "transactions"; "escrow_transactions"; "disputes";
    "audit_logs"; "verification_queue" ].

(** [allowedTables.includes(table)] *)
Definition allowed (table : string) : bool :=
  existsb (String.eqb table) allowedTables.

(** [const { id: _, created_at, ...allowedUpdates } = updateData] *)
Definition allowedUpdates (updateData : Row) : Row :=
  delete "created_at" (delete "id" updateData).

Definition finalUpdateData (e : Env.t) (updateData : Row) : Row :=
  <["updated_at" := VStr (Env.now e)]> (allowedUpdates updateData).

(** [PUT /api/admin/data/[table]/[id]] *)
Definition PUT (e : Env.t) (table id : string) : M NextResponse.t :=
  match Env.auth e with
  | inl response => mret response
  | inr _ =>
    if negb (allowed table) then refuse "Table not allowed" 403
    else
      match Env.session_user e with
      | None => refuse "Unauthorized" 401
      | Some user =>
        try_catch
          (updateData ← req_json e;
           r ← select_single (Env.entity_read e) table None id;
           match Reply.data r with
           | None => refuse "Row not found" 404
           | Some currentData =>
             u ← update_single (Env.persist e) table id
                   (finalUpdateData e updateData);
             match Reply.error u with
             | Some message => refuse message 500
             | None =>
               insert_row (Env.audit_append e) "audit_logs"
                 (audit_row ("UPDATE_" +:+ toUpperCase_ascii table) table (Some id)
                    (VObj currentData) (row_or_null (Reply.data u)) user
                    (ip_address e (Some "unknown"))
                    (user_agent e (Some "unknown")));;
               respond (row_or_null (Reply.data u)) 200
             end
           end)
          (refuse "Invalid request data" 400)
      end
  end.

(** [DELETE /api/admin/data/[table]/[id]] *)
Definition DELETE (e : Env.t) (table id : string) : M NextResponse.t :=
  match Env.auth e with
  | inl response => mret response
  | inr _ =>
    if negb (allowed table) then refuse "Table not allowed" 403
    else
      match Env.session_user e with
      | None => refuse "Unauthorized" 401
      | Some user =>
        try_catch
          (r ← select_single (Env.entity_read e) table None id;
           match Reply.data r with
           | None => refuse "Row not found" 404
           | Some currentData =>
             d ← delete_rows (Env.persist e) table id;
             match Reply.error d with
             | Some message => refuse message 500
             | None =>
               insert_row (Env.audit_append e) "audit_logs"
                 (audit_row ("DELETE_" +:+ toUpperCase_ascii table) table (Some id)
                    (VObj currentData) VNull user
                    (ip_address e (Some "unknown"))
                    (user_agent e (Some "unknown")));;
               respond
                 (VObj {[ "message" := VStr "Row deleted successfully" ]}) 200
             end
           end)
          (refuse "Failed to delete row" 500)
      end
  end.

End Data.

(** ** [user_profiles] handlers (the route file that follows the library in
    [src/lib/adminPermissions.ts]) *)

Module UserProfiles.

Definition PUT (e : Env.t) (id : string) : M NextResponse.t :=
  match Env.auth e with
  | inl response => mret response
  | inr _ =>
    updates ← req_json e;
    u ← update_all (Env.persist e) "user_profiles" id updates;
    match Reply.error u with
    | Some message => refuse message 500
    | None =>
      respond
        (match Reply.data u with
         | Some rs => VArr (map VObj rs)
         | None => VNull
         end) 200
    end
  end.

Definition DELETE (e : Env.t) (id : string) : M NextResponse.t :=
  match Env.auth e with
  | inl response => mret response
  | inr _ =>
    d ← delete_rows (Env.persist e) "user_profiles" id;
    match Reply.error d with
    | Some message => refuse message 500
    | None => respond (VObj {[ "success" := VBool true ]}) 200
    end
  end.

End UserProfiles.

(** ** Vocabulary of the statements *)

(** The handlers that write to storage. *)
Inductive handler :=
| PutTransaction | DeleteTransaction
| PutUser | DeleteUser
| PutData (table : string) | DeleteData (table : string)
| PutUserProfile | DeleteUserProfile.

Definition run (h : handler) (e : Env.t) (id : string) : M NextResponse.t :=
  match h with
  | PutTransaction => Transactions.PUT e id
  | DeleteTransaction => Transactions.DELETE e id
  | PutUser => Users.PUT e id
  | DeleteUser => Users.DELETE e id
  | PutData table => Data.PUT e table id
  | DeleteData table => Data.DELETE e table id
  | PutUserProfile => UserProfiles.PUT e id
  | DeleteUserProfile => UserProfiles.DELETE e id
  end.

(** The handlers whose text contains an insert into [audit_logs]. *)
Definition audited (h : handler) : bool :=
  match h with
  | PutUserProfile | DeleteUserProfile => false
  | _ => true
  end.

(** The handlers whose text contains a [.delete()]. *)
Definition deletes (h : handler) : bool :=
  match h with
  | DeleteData _ | DeleteUserProfile => true
  | _ => false
  end.

(** The role that the lookup of [hasAdminPermission] resolves for an actor:
    the text in the [role] column of the actor's one [profiles] row.  There
    is none when the lookup fails, when the actor has no row or several, or
    when the column holds no string. *)
Definition resolved_role (e : Env.t) (s : State) (adminId : string)
    : option string :=
  match Env.role_lookup e with
  | Proceed =>
      match db_select (db s) "profiles" adminId with
      | Some row =>
          match row !! "role" with
          | Some (VStr r) => Some r
          | _ => None
          end
      | None => None
      end
  | _ => None
  end.

Definition status_of (d : DB) (table id : string) : option value :=
  db_select d table id ≫= (.!! "status").

(** Events that are attempts to write, and those among them that changed
    an entity table. *)
Definition is_write (ev : event) : bool :=
  match ev with
  | EvUpdate _ _ _ _ | EvUpdateAll _ _ _ _ | EvDelete _ _ _ | EvInsert _ _ _ =>
      true
  | _ => false
  end.

Definition committed (ev : event) : bool :=
  match ev with
  | EvUpdate _ _ _ (Some _) | EvUpdateAll _ _ _ (Some _) | EvDelete _ _ true =>
      true
  | _ => false
  end.

Definition is_console (ev : event) : bool :=
  match ev with
  | EvConsole _ _ => true
  | _ => false
  end.

(** The table and id a write was aimed at. *)
Definition target (ev : event) : option (string * string) :=
  match ev with
  | EvUpdate t i _ _ | EvUpdateAll t i _ _ | EvDelete t i _ => Some (t, i)
  | _ => None
  end.

(** The effect of a logged write on the store. *)
Definition apply_write (ev : event) (d : DB) : DB :=
  match ev with
  | EvUpdate t i p (Some _) | EvUpdateAll t i p (Some _) => db_update d t i p
  | EvDelete t i true => db_delete d t i
  | EvInsert t r true => db_insert d t r
  | _ => d
  end.

(** The entity as a committed write left it: the updated row, or [null]
    after a deletion. *)
Definition snapshot_after (ev : event) : value :=
  match ev with
  | EvUpdate _ _ _ (Some r) => VObj r
  | _ => VNull
  end.

(** What a committed write left in the store [d'] that it produced. *)
Definition stored (ev : event) (d' : DB) : Prop :=
  match ev with
  | EvUpdate t _ _ (Some r) => r ∈ rows_of d' t
  | EvDelete t i true => ∀ r, r ∈ rows_of d' t → has_id i r = false
  | _ => True
  end.

(** The audit discipline of one request on the entity [id], stated over
    the events [evs] that the request added to the log and over the store
    [d] before and [d'] after it.

    - When no write was committed, no audit row was even attempted and the
      store is as it was.
    - Otherwise exactly one write [w] was committed.  It comes right after
      the read of the entity it targets, and right before the one attempted
      insert into [audit_logs].  Nothing was written before them and only
      diagnostics follow.  The audit row carries the entity that was read
      as [old_value] and the entity as written as [new_value].  The insert
      succeeds exactly when the audit append of the environment does, and
      the final store is the result of [w] and of that insert. *)
Definition audit_discipline (e : Env.t) (id : string)
    (d : DB) (evs : list event) (d' : DB) : Prop :=
  match List.filter committed evs with
  | [] => (∀ row ok, EvInsert "audit_logs" row ok ∉ evs) ∧ d' = d
  | [w] =>
      ∃ pre table cur row ok post,
        evs = pre ++ [EvSelect table id (Some cur); w;
                      EvInsert "audit_logs" row ok] ++ post ∧
        List.filter is_write pre = [] ∧
        List.filter is_console post = post ∧
        target w = Some (table, id) ∧
        stored w (apply_write w d) ∧
        row !! "entity_id" = Some (VStr id) ∧
        row !! "old_value" = Some (VObj cur) ∧
        row !! "new_value" = Some (snapshot_after w) ∧
        (ok = true ↔ Env.audit_append e = Proceed) ∧
        d' = apply_write (EvInsert "audit_logs" row ok) (apply_write w d)
  | _ => False
  end.

(** [m], run from [s], only adds events to the log, and these events
    follow the audit discipline. *)
Definition follows_discipline (e : Env.t) (id : string)
    (m : M NextResponse.t) (s : State) : Prop :=
  ∃ evs, trace (snd (m s)) = trace s ++ evs ∧
         audit_discipline e id (db s) evs (db (snd (m s))).

(** A rejected audit insert ends the log with the diagnostic of
    [logAdminAction]. *)
Definition audit_failure_logged (e : Env.t) (evs : list event) : Prop :=
  Env.audit_append e = Throw →
  last evs = Some (EvConsole "error" "Error logging admin action:").

(** No table of [d'] has fewer rows than it has in [d]. *)
Definition no_shrink (d d' : DB) : Prop :=
  ∀ t, length (rows_of d t) ≤ length (rows_of d' t).

(** The payload of the deactivation update. *)
Definition deactivation (e : Env.t) : Row :=
  {[ "status" := VStr "inactive"; "updated_at" := VStr (Env.now e) ]}.

(** ** A concrete store and concrete requests *)

Module Scenario.
Definition clock : string := "2024-06-01T12:00:00.000Z".

Definition admin_account : Row :=
  {[ "id" := VStr "a1"; "role" := VStr "admin"; "status" := VStr "active" ]}.
Definition moderator_account : Row :=
  {[ "id" := VStr "m1"; "role" := VStr "moderator";
     "status" := VStr "active" ]}.
Definition completed_transaction : Row :=
  {[ "id" := VStr "t1"; "status" := VStr "completed";
     "created_at" := VStr "2024-01-01T00:00:00.000Z" ]}.
Definition cancelled_transaction : Row :=
  {[ "id" := VStr "t2"; "status" := VStr "cancelled";
     "created_at" := VStr "2024-01-02T00:00:00.000Z" ]}.
Definition pending_transaction : Row :=
  {[ "id" := VStr "t3"; "status" := VStr "pending";
     "created_at" := VStr "2024-01-03T00:00:00.000Z" ]}.
Definition user_profile : Row :=
  {[ "id" := VStr "u1"; "verification_status" := VStr "pending" ]}.

Definition store : DB :=
  {[ "profiles" := [admin_account; moderator_account];
     "escrow_transactions" :=
       [completed_transaction; cancelled_transaction; pending_transaction];
     "user_profiles" := [user_profile] ]}.

Definition start : State := mkState store [].

(** A request of [actor], let through by [requireAdmin] and in session,
    with the given body.  Every storage call runs against the store,
    except the audit append, which ends as given.  The text in the store
    is ASCII, where the platform upper-cases as [toUpperCase_ascii]. *)
Definition request (actor : string) (body : option Row) (audit : outcome)
    : Env.t :=
  Env.mk (inr actor) (Some actor) body clock None None None
         Proceed Proceed Proceed audit toUpperCase_ascii.
End Scenario.

(** ** Further handlers *)

(** Modelled from the spec: the storage client's select of one
    [escrow_transactions] row by id, with all its columns and with the
    embedded resources [buyer] and [seller], ended by [.single()].  How the
    storage engine fills in the embedded resources is left open: [joined]
    is the row as it is returned, given the store and the stored row. *)
Definition select_transaction (joined : DB -> Row -> Row) (o : outcome)
    (id : string) : M (Reply.t Row) := fun s =>
  match o with
  | Throw => (Thrown, log (EvSelect "escrow_transactions" id None) s)
  | Fail msg =>
      (Ok (Reply.mk None (Some msg)),
       log (EvSelect "escrow_transactions" id None) s)
  | Proceed =>
      match db_select (db s) "escrow_transactions" id with
      | Some r =>
          let r' := joined (db s) r in
          (Ok (Reply.mk (Some r') None),
           log (EvSelect "escrow_transactions" id (Some r')) s)
      | None =>
          (Ok (Reply.mk None (Some not_single)),
           log (EvSelect "escrow_transactions" id None) s)
      end
  end.

(** Modelled from the spec: the storage client's
    [.from(table).insert(row).select()]: the row is stored with the columns
    the database fills in, [generated], behind the columns that were sent,
    and comes back in an array. *)
Definition insert_returning (o : outcome) (table : string)
    (row generated : Row) : M (Reply.t (list Row)) := fun s =>
  match o with
  | Throw => (Thrown, log (EvInsert table row false) s)
  | Fail msg => (Ok (Reply.mk None (Some msg)), log (EvInsert table row false) s)
  | Proceed =>
      let r := patched row generated in
      (Ok (Reply.mk (Some [r]) None),
       mkState (db_insert (db s) table r) (trace s ++ [EvInsert table r true]))
  end.

(** A property of an object literal: a property whose value is [undefined]
    is not sent. *)
Definition with_field (k : string) (v : option value) (r : Row) : Row :=
  match v with
  | Some x => <[k := x]> r
  | None => r
  end.

(** [GET /api/admin/transactions/[id]]
    ([src/app/api/admin/transactions/[id]/route.ts]) *)
Module TransactionDetails.

(** What follows the guard; no [try] surrounds it. *)
Definition details (joined : DB -> Row -> Row) (e : Env.t) (id : string)
    (_ : string) : M NextResponse.t :=
  r ← select_transaction joined (Env.entity_read e) id;
  match Reply.error r, Reply.data r with
  | None, Some data => respond (VObj data) 200
  | _, _ => refuse "Transaction not found" 404
  end.

Definition GET (joined : DB -> Row -> Row) (e : Env.t) (id : string)
    : M NextResponse.t :=
  gated e ADMIN_PERMISSIONS.VIEW_TRANSACTIONS (details joined e id).

End TransactionDetails.

(** The transaction creation handler ([src/unnamed/part_005]).  [auth] is
    the result of [requireAuth()], a refusal or the id of the user, and
    [generated] the columns the database fills in. *)
Module TransactionCreate.

(** The object passed to [insert]. *)
Definition record (e : Env.t) (user : string) (body : Row) : Row :=
  let buyer := is_str "Buyer" (body !! "role") in
  with_field "title" (body !! "title")
    (with_field "currency" (body !! "currency")
       (with_field "inspection_period" (body !! "inspectionPeriod")
          (with_field "items" (body !! "items")
             {[ "seller_id" := if buyer then VNull else VStr user;
                "buyer_id" := if buyer then VStr user else VNull;
                "status" := VStr "pending";
                "created_at" := VStr (Env.now e) ]}))).

Definition POST (auth : NextResponse.t + string) (e : Env.t)
    (generated : Row) : M NextResponse.t :=
  try_catch
    (match auth with
     | inl response => mret response
     | inr user =>
       body ← req_json e;
       r ← insert_returning (Env.persist e) "escrow_transactions"
             (record e user body) generated;
       match Reply.error r with
       | Some message =>
         console "error" "Error creating transaction:";;
         refuse message 500
       | None =>
         match Reply.data r with
         | Some (transaction :: _) =>
           respond (VObj {[ "success" := VBool true;
                            "transaction" := VObj transaction ]}) 200
         | _ => refuse "Failed to create transaction" 500
         end
       end
     end)
    (console "error" "Transaction create error:";;
     refuse "Internal Server Error" 500).

End TransactionCreate.

(** The verification submission handler (the route file that follows the
    transaction routes in [src/app/api/admin/transactions/[id]/route.ts]). *)
Module VerificationSubmit.

(** [personalDetails.name]: reading a property of [undefined] or [null]
    throws; a value that is not an object has none of the properties read
    here. *)
Definition property_of (v : option value) : M (string -> option value) :=
  match v with
  | None | Some VNull => throw
  | Some (VObj o) => mret (fun k => o !! k)
  | Some _ => mret (fun _ => None)
  end.

(** The object passed to [update]. *)
Definition record (body : Row) (details : string -> option value) : Row :=
  with_field "account_type" (body !! "accountType")
    (with_field "first_name" (details "firstName")
    (with_field "middle_name" (details "middleName")
    (with_field "last_name" (details "lastName")
    (with_field "date_of_birth" (details "dateOfBirth")
    (with_field "address" (details "address")
    (with_field "city" (details "city")
    (with_field "state" (details "state")
    (with_field "zip_code" (details "zipCode")
    (with_field "country" (details "country")
    (with_field "phone_number" (details "phoneNumber")
       {[ "verification_status" := VStr "pending" ]})))))))))).

(** The update has no [.select()]: every row of the user is updated and
    nothing is read back. *)
Definition POST (auth : NextResponse.t + string) (e : Env.t)
    : M NextResponse.t :=
  try_catch
    (match auth with
     | inl response => mret response
     | inr user =>
       body ← req_json e;
       details ← property_of (body !! "personalDetails");
       u ← update_all (Env.persist e) "user_profiles" user
             (record body details);
       match Reply.error u with
       | Some _ =>
         console "error" "Error updating user profile:";;
         refuse "Failed to update profile" 500
       | None => respond (VObj {[ "success" := VBool true ]}) 200
       end
     end)
    (console "error" "Verification submit error:";;
     refuse "Internal Server Error" 500).

End VerificationSubmit.

(** ** More vocabulary *)

Fixpoint no_underscore (s : string) : bool :=
  match s with
  | EmptyString => true
  | String c r => negb (Ascii.eqb c "_") && no_underscore r
  end.

(** The table a handler works on. *)
Definition table_of (h : handler) : string :=
  match h with
  | PutTransaction | DeleteTransaction => "escrow_transactions"
  | PutUser | DeleteUser => "profiles"
  | PutData table | DeleteData table => table
  | PutUserProfile | DeleteUserProfile => "user_profiles"
  end.


(** The tables other than [t] and [audit_logs] are in [d'] what they are
    in [d]. *)
Definition confined (t : string) (d d' : DB) : Prop :=
  ∀ t', t' ≠ t → t' ≠ "audit_logs" → rows_of d' t' = rows_of d t'.

(** Every row of [d] that does not carry [id] is still in its table
    in [d']. *)
Definition others_kept (id : string) (d d' : DB) : Prop :=
  ∀ t r, r ∈ rows_of d t → has_id id r = false → r ∈ rows_of d' t.

(** The handlers that parse the body of the request. *)
Definition reads_body (h : handler) : bool :=
  match h with
  | PutTransaction | PutUser | PutData _ | PutUserProfile => true
  | _ => false
  end.

(** The update of the handler cannot move the row to another id: the
    generic data handler strips [id] from the payload and the deactivation
    and the cancellation have fixed payloads; the other two send the body
    as it is. *)
Definition keeps_id (h : handler) (e : Env.t) : Prop :=
  match h with
  | PutTransaction | PutUser =>
      ∀ updateData, Env.body e = Some updateData → updateData !! "id" = None
  | _ => True
  end.

(** [m] answers 200 only when it found the row [id] of [t] and left it in
    place, overridden by a payload that holds the time of the request and
    no [id]. *)
Definition read_back (e : Env.t) (t id : string) (m : M NextResponse.t)
    (s : State) : Prop :=
  ∀ r, fst (m s) = Ok r → NextResponse.status r = 200 →
    ∃ cur payload,
      db_select (db s) t id = Some cur ∧
      db_select (db (snd (m s))) t id = Some (patched payload cur) ∧
      payload !! "id" = None ∧
      payload !! "updated_at" = Some (VStr (Env.now e)).

(** The handlers that can write the [role] column of [profiles], or add
    and remove rows of that table. *)
Definition may_change_roles (h : handler) : bool :=
  match h with
  | PutUser => true
  | PutData table | DeleteData table => String.eqb table "profiles"
  | _ => false
  end.

(** Every actor resolves to the same role in [d'] as in [d]. *)
Definition same_roles (d d' : DB) : Prop :=
  ∀ e tr tr' a,
    resolved_role e (mkState d' tr') a = resolved_role e (mkState d tr) a.


(** The columns that a verification submission writes. *)
Definition verification_columns : list string :=
  [ "verification_status"; "account_type"; "first_name"; "middle_name";
    "last_name"; "date_of_birth"; "address"; "city"; "state"; "zip_code";
    "country"; "phone_number" ].

(** [m] answers 200 only after a committed write on the row [id] of [t]. *)
Definition ok_written_at (t id : string) (m : M NextResponse.t) (s : State)
    : Prop :=
  ∀ r, fst (m s) = Ok r → NextResponse.status r = 200 →
    ∃ evs, trace (snd (m s)) = trace s ++ evs ∧
      ∃ w, w ∈ evs ∧ committed w = true ∧ target w = Some (t, id).

(** [m] writes nothing and does not answer 200. *)
Definition declines (m : M NextResponse.t) (s : State) : Prop :=
  (∃ evs, snd (m s) = mkState (db s) (trace s ++ evs) ∧
          List.filter is_write evs = []) ∧
  (∀ r, fst (m s) = Ok r → NextResponse.status r ≠ 200).

(** [m] stored nothing, attempted no audit row, and passed the message of
    the storage error on if it attempted a write. *)
Definition forwards (msg : string) (m : M NextResponse.t) (s : State) : Prop :=
  ∃ evs, snd (m s) = mkState (db s) (trace s ++ evs) ∧
    (∀ row ok, EvInsert "audit_logs" row ok ∉ evs) ∧
    (∀ ev, ev ∈ evs → is_write ev = true →
           fst (m s) = Ok (rejection msg 500)).

(** The account an audit row of the handler names in [performed_by]: the
    admin that [requireAdmin] returned in the transaction handlers, the
    user of the session in the others. *)
Definition performer (h : handler) (e : Env.t) (adminId : string)
    : option string :=
  match h with
  | PutTransaction | DeleteTransaction => Some adminId
  | _ => Env.session_user e
  end.

(** The [action] and the [entity_type] of the audit rows of a handler. *)
Definition audit_label (h : handler) : string * string :=
  match h with
  | PutTransaction => ("UPDATE_TRANSACTION", "transaction")
  | DeleteTransaction => ("CANCEL_TRANSACTION", "transaction")
  | PutUser => ("UPDATE_USER", "user")
  | DeleteUser => ("DEACTIVATE_USER", "user")
  | PutData table => ("UPDATE_" +:+ toUpperCase_ascii table, table)
  | DeleteData table => ("DELETE_" +:+ toUpperCase_ascii table, table)
  | PutUserProfile | DeleteUserProfile => ("", "")
  end.

(** * Proofs *)

#[local] Arguments project : simpl never.
#[local] Arguments db_select : simpl never.
#[local] Arguments db_update : simpl never.
#[local] Arguments db_delete : simpl never.
#[local] Arguments db_insert : simpl never.
#[local] Arguments patched : simpl never.
#[local] Arguments audit_row : simpl never.
#[local] Arguments ip_address : simpl never.
#[local] Arguments user_agent : simpl never.
#[local] Arguments error_body : simpl never.
#[local] Arguments rejection : simpl never.
#[local] Arguments audit_discipline : simpl never.

Create HintDb shrink.

(** ** Tactics *)

Lemma project_all (r : Row) : project None r = r.
Proof. done. Qed.

Ltac unfold_M :=
  unfold try_catch, mbind, M_bind, mret, M_ret, throw, console, log in *.

Ltac unfold_handlers :=
  unfold Transactions.update, Transactions.cancel, Users.PUT, Users.DELETE,
    Data.PUT, Data.DELETE, UserProfiles.PUT, UserProfiles.DELETE,
    logAdminAction, req_json, select_single, update_single, update_all,
    delete_rows, insert_row, respond, refuse in *.

(** One step of symbolic execution: case analysis on what the handler
    branches on next. *)
Ltac step :=
  match goal with
  | H : db_select ?d ?t ?i = _ |- context [db_select ?d ?t ?i] => rewrite H
  | |- context [match ?x with _ => _ end] => is_var x; destruct x
  | |- context [match db_select ?d ?t ?i with _ => _ end] =>
      let E := fresh "Hsel" in destruct (db_select d t i) eqn:E
  | |- context [if ?b then _ else _] =>
      let E := fresh "Hif" in destruct b eqn:E
  end.

(** Runs a handler on every path, once the environment and the state have
    been destructed. *)
Ltac run_handler :=
  unfold_handlers; unfold_M; simpl;
  repeat (step; simpl);
  rewrite <- ?app_assoc; simpl;
  rewrite ?project_all.

(** The events a path added to the log. *)
Ltac grown :=
  first [ exists []; split; [by rewrite app_nil_r |]
        | eexists; split; [reflexivity |] ].

(** Membership of an event in an explicit list of events, case by case. *)
Ltac pick_event Hin :=
  repeat (apply elem_of_cons in Hin as [Hin | Hin]; [simplify_eq |]);
  try (by apply elem_of_nil in Hin).

(** ** Values, rows and the catalog *)

Lemma project_role (row : Row) :
  project (Some ["role"]) row !! "role" = row !! "role".
Proof.
  unfold project. apply option_eq. intros v.
  rewrite map_lookup_filter_Some. simpl. split; [tauto |].
  intros H. split; [done |]. by apply list_elem_of_singleton.
Qed.

Lemma role_grants_elem role p :
  role_grants role p = true ↔
  p ∈ map AdminPermission.id (AdminRole.permissions role).
Proof.
  unfold role_grants. rewrite existsb_exists, list_elem_of_In, in_map_iff.
  split; intros (x & H1 & H2).
  - apply String.eqb_eq in H2. eauto.
  - exists x. split; [done |]. by apply String.eqb_eq.
Qed.

Lemma patched_keeps (p r : Row) k : p !! k = None → patched p r !! k = r !! k.
Proof. intros H. unfold patched. by rewrite lookup_union_r. Qed.

Lemma audit_row_entity_id a t i o n p ip ua :
  audit_row a t (Some i) o n p ip ua !! "entity_id" = Some (VStr i).
Proof. reflexivity. Qed.

Lemma audit_row_old_value a t i o n p ip ua :
  audit_row a t i o n p ip ua !! "old_value" = Some o.
Proof. reflexivity. Qed.

Lemma audit_row_new_value a t i o n p ip ua :
  audit_row a t i o n p ip ua !! "new_value" = Some n.
Proof. reflexivity. Qed.

Lemma finalUpdateData_lookup e upd k :
  Data.finalUpdateData e upd !! k =
  if decide (k = "updated_at") then Some (VStr (Env.now e))
  else if decide (k = "id" ∨ k = "created_at") then None
  else upd !! k.
Proof.
  unfold Data.finalUpdateData, Data.allowedUpdates.
  rewrite lookup_insert, !lookup_delete.
  repeat case_decide; subst; try done; exfalso; intuition congruence.
Qed.

Lemma deactivation_lookup e k :
  k ≠ "status" → k ≠ "updated_at" → deactivation e !! k = None.
Proof.
  intros H1 H2. unfold deactivation.
  rewrite lookup_insert_ne by done. by rewrite lookup_singleton_ne.
Qed.

(** ** The store *)

Lemma rows_of_alter (g : list Row → list Row) t (d : DB) t' :
  g [] = [] →
  rows_of (alter g t d) t' =
  if decide (t = t') then g (rows_of d t') else rows_of d t'.
Proof.
  intros Hg. unfold rows_of. rewrite lookup_alter.
  case_decide as H; [subst | done]. by destruct (d !! t').
Qed.

Lemma rows_of_update d t id p t' :
  rows_of (db_update d t id p) t' =
  if decide (t = t')
  then map (fun r => if has_id id r then patched p r else r) (rows_of d t')
  else rows_of d t'.
Proof. unfold db_update. by rewrite rows_of_alter. Qed.

Lemma rows_of_delete d t id t' :
  rows_of (db_delete d t id) t' =
  if decide (t = t')
  then List.filter (fun r => negb (has_id id r)) (rows_of d t')
  else rows_of d t'.
Proof. unfold db_delete. by rewrite rows_of_alter. Qed.

Lemma rows_of_insert d t r t' :
  rows_of (db_insert d t r) t' =
  if decide (t = t') then rows_of d t' ++ [r] else rows_of d t'.
Proof.
  unfold db_insert. unfold rows_of at 1. rewrite lookup_insert.
  by case_decide; subst.
Qed.

Lemma single_filter (f : Row → bool) rows r :
  single (List.filter f rows) = Some r → In r rows ∧ f r = true.
Proof.
  destruct (List.filter f rows) as [| x [| ? ?]] eqn:E; try done.
  intros [= ->]. apply filter_In. rewrite E. by left.
Qed.

Lemma db_select_elem d t id r :
  db_select d t id = Some r → r ∈ rows_of d t ∧ has_id id r = true.
Proof.
  unfold db_select. intros [H1 H2]%single_filter.
  by apply list_elem_of_In in H1.
Qed.

(** An update that found its row leaves the patched row in the table. *)
Lemma db_update_stores d t id p r :
  db_select d t id = Some r →
  patched p r ∈ rows_of (db_update d t id p) t.
Proof.
  intros [Hin Hid]%db_select_elem. rewrite rows_of_update.
  rewrite decide_True by done. apply list_elem_of_In, in_map_iff.
  exists r. rewrite Hid. split; [done |]. by apply list_elem_of_In.
Qed.

(** After a deletion no row of the table carries the id. *)
Lemma db_delete_removes d t id r :
  r ∈ rows_of (db_delete d t id) t → has_id id r = false.
Proof.
  rewrite rows_of_delete, decide_True by done.
  intros [_ H]%list_elem_of_In%filter_In. by destruct (has_id id r).
Qed.

(** A column that the payload does not mention reads the same in every row
    after the update. *)
Lemma column_after_update d t id p k t' :
  p !! k = None →
  map (fun r : Row => r !! k) (rows_of (db_update d t id p) t') =
  map (fun r : Row => r !! k) (rows_of d t').
Proof.
  intros Hk. rewrite rows_of_update. case_decide; [| done].
  rewrite map_map. apply map_ext. intros r.
  destruct (has_id id r); [| done]. by apply patched_keeps.
Qed.

Lemma no_shrink_refl d : no_shrink d d.
Proof. by intros t. Qed.

Lemma no_shrink_update d d' t i p :
  no_shrink d d' → no_shrink d (db_update d' t i p).
Proof.
  intros H t'. rewrite rows_of_update. case_decide; [| done].
  rewrite length_map. apply H.
Qed.

Lemma no_shrink_insert d d' t r :
  no_shrink d d' → no_shrink d (db_insert d' t r).
Proof.
  intros H t'. rewrite rows_of_insert. case_decide; [| done].
  rewrite length_app. specialize (H t'). lia.
Qed.

#[local] Hint Resolve no_shrink_refl no_shrink_update no_shrink_insert : shrink.

(** ** Event lists *)

Lemma app_same_nil {A} (l k : list A) : l = l ++ k → k = [].
Proof. intros H. apply (app_inv_head l). by rewrite app_nil_r. Qed.

Ltac added_in Htr :=
  first [apply app_inv_head in Htr | apply app_same_nil in Htr];
  try (subst; simpl in * ).

Lemma last_app_nonempty {A} (l k : list A) x :
  last k = Some x → last (l ++ k) = Some x.
Proof.
  destruct k as [| y k]; [done |]. intros H. rewrite last_app. by rewrite H.
Qed.

Lemma filter_write_console (evs : list event) :
  List.filter is_console evs = evs → List.filter is_write evs = [].
Proof.
  induction evs as [| ev evs IH]; [done |]. simpl.
  destruct ev; simpl; intros H; try (by injection H as H; auto).
  all: exfalso;
    assert (length (List.filter is_console evs) ≤ length evs)%nat
      by apply filter_length_le;
    rewrite H in *; simpl in *; lia.
Qed.

Lemma filter_committed_write (evs : list event) :
  List.filter is_write evs = [] → List.filter committed evs = [].
Proof.
  induction evs as [| ev evs IH]; [done |]. simpl.
  destruct ev as [| ? ? ? [] | ? ? ? [] | ? ? [] | |]; simpl; try done; auto.
Qed.

Lemma console_only_elem diag ev :
  List.filter is_console diag = diag → ev ∈ diag → is_console ev = true.
Proof.
  intros H Hin. rewrite <- H in Hin.
  by apply list_elem_of_In, filter_In in Hin as [_ ?].
Qed.

(** ** The guard *)

Lemma hasAdminPermissionIn_resolved roles e s a p r :
  resolved_role e s a = Some r →
  fst (hasAdminPermissionIn roles e a p s) =
  Ok (if String.eqb r "admin" then true
      else match roles !! toUpperCase e r with
           | Some role => role_grants role p
           | None => false
           end).
Proof.
  unfold resolved_role, hasAdminPermissionIn, select_single. unfold_M.
  destruct (Env.role_lookup e); try discriminate.
  destruct (db_select (db s) "profiles" a) as [row |]; try discriminate.
  intros H. simpl. rewrite project_role.
  destruct (row !! "role") as [[] |]; try discriminate.
  injection H as ->. simpl.
  destruct (String.eqb r "admin"); [done |]. simpl.
  by destruct (roles !! toUpperCase e r).
Qed.

Lemma hasAdminPermissionIn_unresolved roles e s a p :
  resolved_role e s a = None →
  fst (hasAdminPermissionIn roles e a p s) = Ok false.
Proof.
  unfold resolved_role, hasAdminPermissionIn, select_single. unfold_M.
  destruct (Env.role_lookup e); try done.
  destruct (db_select (db s) "profiles" a) as [row |]; try done.
  intros H. simpl. rewrite project_role.
  by destruct (row !! "role") as [[] |].
Qed.

Lemma getAdminPermissionsIn_admin roles e s a :
  resolved_role e s a = Some "admin" →
  fst (getAdminPermissionsIn roles e a s) = Ok ADMIN_PERMISSIONS.values.
Proof.
  unfold resolved_role, getAdminPermissionsIn, select_single. unfold_M.
  destruct (Env.role_lookup e); try discriminate.
  destruct (db_select (db s) "profiles" a) as [row |]; try discriminate.
  intros H. simpl. rewrite project_role.
  destruct (row !! "role") as [[] |]; try discriminate.
  by injection H as ->.
Qed.

(** The guard always answers.  It leaves the store untouched; the log gains
    the role lookup and at most one diagnostic. *)
Lemma hasAdminPermissionIn_effect roles e s a p :
  ∃ b found diag,
    hasAdminPermissionIn roles e a p s =
      (Ok b, mkState (db s) (trace s ++ EvSelect "profiles" a found :: diag)) ∧
    (diag = [] ∨ diag = [EvConsole "error" "Error checking admin permission:"]).
Proof.
  unfold hasAdminPermissionIn, select_single. unfold_M.
  destruct (Env.role_lookup e); simpl.
  - destruct (db_select (db s) "profiles" a) as [row |]; simpl.
    + rewrite project_role.
      destruct (is_str "admin" (row !! "role")); simpl; [by eauto 6 |].
      destruct (row !! "role") as [[| | | r | |] |]; simpl;
        rewrite <- ?app_assoc; simpl; eauto 6.
      destruct (roles !! toUpperCase e r); eauto 6.
    + eauto 6.
  - eauto 6.
  - rewrite <- app_assoc. simpl. eauto 6.
Qed.

Lemma requireAdminPermission_effect e s a p :
  ∃ b found diag,
    requireAdminPermission e a p s =
      (Ok b, mkState (db s) (trace s ++ EvSelect "profiles" a found :: diag)) ∧
    fst (hasAdminPermission e a p s) = Ok b ∧
    List.filter is_console diag = diag.
Proof.
  unfold requireAdminPermission, hasAdminPermission.
  destruct (hasAdminPermissionIn_effect ADMIN_ROLES e s a p)
    as (b & found & diag & Hrun & Hdiag).
  unfold_M. rewrite Hrun. simpl.
  destruct b; simpl.
  - exists true, found, diag. by destruct Hdiag as [-> | ->].
  - eexists false, found, _. rewrite <- app_assoc. simpl.
    split; [reflexivity |]. split; [done |].
    by destruct Hdiag as [-> | ->].
Qed.

(** The three ways through the opening lines of a gated handler. *)
Lemma gated_cases e p action s :
  (∃ response, Env.auth e = inl response ∧
     gated e p action s = (Ok response, s)) ∨
  (∃ a found diag, Env.auth e = inr a ∧
     List.filter is_console diag = diag ∧
     let s1 := mkState (db s) (trace s ++ EvSelect "profiles" a found :: diag) in
     (fst (hasAdminPermission e a p s) = Ok false ∧
      gated e p action s =
        (Ok (rejection "Insufficient permissions" 403), s1))
     ∨ (fst (hasAdminPermission e a p s) = Ok true ∧
        gated e p action s = action a s1)).
Proof.
  unfold gated. destruct (Env.auth e) as [response | a]; [left; eauto |].
  right.
  destruct (requireAdminPermission_effect e s a p)
    as (b & found & diag & Hrun & Hdec & Hdiag).
  exists a, found, diag. split; [done |]. split; [done |].
  unfold_M. rewrite Hrun. destruct b; simpl; [right | left]; done.
Qed.

(** A write logged by a gated handler was made by its action, after the
    guard let the actor through. *)
Lemma gated_write e p action s evs ev :
  (∀ a s1, ∃ evs1, trace (snd (action a s1)) = trace s1 ++ evs1) →
  trace (snd (gated e p action s)) = trace s ++ evs →
  ev ∈ evs → is_write ev = true →
  ∃ a pre evs1,
    Env.auth e = inr a ∧
    fst (hasAdminPermission e a p s) = Ok true ∧
    gated e p action s = action a (mkState (db s) (trace s ++ pre)) ∧
    evs = pre ++ evs1 ∧
    trace (snd (action a (mkState (db s) (trace s ++ pre)))) =
      (trace s ++ pre) ++ evs1 ∧
    ev ∈ evs1.
Proof.
  intros Hgrow Htr Hin Hw.
  destruct (gated_cases e p action s)
    as [(resp & Hauth & Hrun)
       | (a & found & diag & Hauth & Hdiag & [[Hno Hrun] | [Hyes Hrun]])];
    rewrite Hrun in Htr; simpl in Htr.
  - apply app_same_nil in Htr. subst. by apply elem_of_nil in Hin.
  - apply app_inv_head in Htr. subst.
    apply elem_of_cons in Hin as [-> | Hin]; [done |].
    apply (console_only_elem _ _ Hdiag) in Hin. by destruct ev.
  - destruct (Hgrow a
      (mkState (db s) (trace s ++ EvSelect "profiles" a found :: diag)))
      as (evs1 & Htr1).
    exists a, (EvSelect "profiles" a found :: diag), evs1.
    simpl in Htr1. rewrite Htr1, <- app_assoc in Htr.
    apply app_inv_head in Htr. subst evs.
    repeat split; try done.
    apply elem_of_app in Hin as [Hin | Hin]; [| done].
    apply elem_of_cons in Hin as [-> | Hin]; [done |].
    apply (console_only_elem _ _ Hdiag) in Hin. by destruct ev.
Qed.

Lemma update_grows e id a s :
  ∃ evs, trace (snd (Transactions.update e id a s)) = trace s ++ evs.
Proof.
  destruct e as [auth su body now xff xri ua o1 o2 o3 o4 up].
  destruct s as [d tr]. run_handler;
    first [ by exists []; rewrite app_nil_r | by eexists ].
Qed.

Lemma cancel_grows e id a s :
  ∃ evs, trace (snd (Transactions.cancel e id a s)) = trace s ++ evs.
Proof.
  destruct e as [auth su body now xff xri ua o1 o2 o3 o4 up].
  destruct s as [d tr]. run_handler;
    first [ by exists []; rewrite app_nil_r | by eexists ].
Qed.

Lemma run_refused h e id s response :
  Env.auth e = inl response → run h e id s = (Ok response, s).
Proof.
  intros H. destruct h; simpl;
    unfold Transactions.PUT, Transactions.DELETE, gated, Users.PUT,
      Users.DELETE, Data.PUT, Data.DELETE, UserProfiles.PUT,
      UserProfiles.DELETE; by rewrite H.
Qed.

(** ** The audit discipline, handler by handler *)

Ltac no_audit :=
  split; [| reflexivity];
  intros ? ? Hin; pick_event Hin.

Ltac one_audit :=
  exists []; do 5 eexists;
  split; [reflexivity |];
  split; [done |];
  split; [reflexivity |];
  split; [reflexivity |];
  split; [first [by apply db_update_stores | by apply db_delete_removes] |];
  split; [apply audit_row_entity_id |];
  split; [apply audit_row_old_value |];
  split; [apply audit_row_new_value |];
  split; [by split | reflexivity].

Ltac discipline :=
  match goal with
  | |- follows_discipline ?e _ _ ?s =>
      destruct e as [auth su body now xff xri ua o1 o2 o3 o4 up];
      destruct s as [d tr]; unfold follows_discipline;
      run_handler; grown; unfold audit_discipline; simpl;
      first [ no_audit | one_audit ]
  end.

Lemma Users_PUT_discipline e id s :
  follows_discipline e id (Users.PUT e id) s.
Proof. discipline. Qed.

Lemma Users_DELETE_discipline e id s :
  follows_discipline e id (Users.DELETE e id) s.
Proof. discipline. Qed.

Lemma Data_PUT_discipline e table id s :
  follows_discipline e id (Data.PUT e table id) s.
Proof. discipline. Qed.

Lemma Data_DELETE_discipline e table id s :
  follows_discipline e id (Data.DELETE e table id) s.
Proof. discipline. Qed.

Lemma update_discipline e id a s :
  follows_discipline e id (Transactions.update e id a) s.
Proof. discipline. Qed.

Lemma cancel_discipline e id a s :
  follows_discipline e id (Transactions.cancel e id a) s.
Proof. discipline. Qed.

(** Reads and diagnostics in front of a request do not break its
    discipline. *)
Lemma audit_discipline_after e id d pre evs d' :
  List.filter is_write pre = [] →
  audit_discipline e id d evs d' →
  audit_discipline e id d (pre ++ evs) d'.
Proof.
  intros Hpre. unfold audit_discipline.
  rewrite List.filter_app, (filter_committed_write _ Hpre). simpl.
  destruct (List.filter committed evs) as [| w [| ? ?]]; [| | done].
  - intros [Hno ->]. split; [| done].
    intros row ok [Hin | Hin]%elem_of_app; [| by eapply Hno].
    apply list_elem_of_In in Hin.
    assert (In (EvInsert "audit_logs" row ok) (List.filter is_write pre)) as H.
    { by apply filter_In. }
    by rewrite Hpre in H.
  - intros (pre0 & table & cur & row & ok & post & -> & Hpre0 & H).
    exists (pre ++ pre0), table, cur, row, ok, post.
    split; [by rewrite <- (app_assoc pre pre0) |].
    split; [| done]. by rewrite List.filter_app, Hpre, Hpre0.
Qed.

Lemma gated_discipline e id p action s :
  (∀ a s1, follows_discipline e id (action a) s1) →
  follows_discipline e id (gated e p action) s.
Proof.
  intros Haction. unfold follows_discipline.
  destruct (gated_cases e p action s)
    as [(? & _ & ->) | (a & found & diag & _ & Hdiag & [[_ ->] | [_ ->]])].
  - exists []. simpl. split; [by rewrite app_nil_r |]. split; [| done].
    intros ? ? Hin. by apply elem_of_nil in Hin.
  - exists ((EvSelect "profiles" a found :: diag) ++ []).
    split; [by rewrite app_nil_r |].
    apply (audit_discipline_after _ _ _ (_ :: diag));
      [simpl; by apply filter_write_console |].
    split; [| done]. intros ? ? Hin. by apply elem_of_nil in Hin.
  - destruct (Haction a
      (mkState (db s) (trace s ++ EvSelect "profiles" a found :: diag)))
      as (evs & Htr & Hd).
    exists ((EvSelect "profiles" a found :: diag) ++ evs).
    simpl in Htr. split; [by rewrite Htr, <- app_assoc |].
    apply (audit_discipline_after _ _ _ (_ :: diag)); [| done].
    simpl. by apply filter_write_console.
Qed.

(** ** Authorization decisions: C5, C6, C10, C7 *)


(** C6.  For an actor whose resolved role is ["admin"] the guard allows
    every permission string, whatever the role table it is run with: the
    answer is given before the table is consulted. *)
Theorem C6_top_level_bypass
    (roles : gmap string AdminRole.t)
    (e : Env.t) (s : State) (adminId permission : string) :
  resolved_role e s adminId = Some "admin" →
  fst (hasAdminPermissionIn roles e adminId permission s) = Ok true ∧
  fst (hasAdminPermission e adminId permission s) = Ok true.
Proof.
  intros Hr. unfold hasAdminPermission.
  by rewrite !(hasAdminPermissionIn_resolved _ _ _ _ _ _ Hr).
Qed.

(** C10.  For an actor whose resolved role is ["admin"],
    [hasAdminPermission] is true of every permission string, while
    [getAdminPermissions] returns the values of [ADMIN_PERMISSIONS]; so
    having a permission is not the same as its being listed. *)
Theorem C10_bypass_exceeds_listing
    (e : Env.t) (s : State) (adminId : string) :
  resolved_role e s adminId = Some "admin" →
  (∀ p, fst (hasAdminPermission e adminId p s) = Ok true) ∧
  fst (getAdminPermissions e adminId s) = Ok ADMIN_PERMISSIONS.values ∧
  ¬ (∀ p, fst (hasAdminPermission e adminId p s) = Ok true ↔
          p ∈ ADMIN_PERMISSIONS.values).
Proof.
  intros Hr.
  assert (∀ p, fst (hasAdminPermission e adminId p s) = Ok true) as Hall.
  { intros p. unfold hasAdminPermission.
    by rewrite (hasAdminPermissionIn_resolved _ _ _ _ _ _ Hr). }
  split; [done |]. split; [by apply getAdminPermissionsIn_admin |].
  intros H.
  assert (("drop_tables" : string) ∈ ADMIN_PERMISSIONS.values) as Hin
    by apply H, Hall.
  apply list_elem_of_In in Hin. vm_compute in Hin.
  repeat (destruct Hin as [Hin | Hin]; [discriminate |]). done.
Qed.

(** C7.  A request that is refused at the door has no effect.  When
    [requireAdmin] refuses, every handler returns that refusal and the
    state is untouched.  When the permission is denied, a gated handler
    answers 403 without running its action: the store is unchanged and the
    log gains only the actor's role lookup and diagnostics.  A moderator
    asking for an action gated on [DELETE_TRANSACTIONS] is denied in this
    way. *)
Theorem C7_denied_request_no_effect (e : Env.t) (s : State) :
  (∀ h id response,
     Env.auth e = inl response → run h e id s = (Ok response, s)) ∧
  (∀ adminId permission action,
     Env.auth e = inr adminId →
     fst (hasAdminPermission e adminId permission s) = Ok false →
     ∃ found diag,
       gated e permission action s =
         (Ok (rejection "Insufficient permissions" 403),
          mkState (db s)
            (trace s ++ EvSelect "profiles" adminId found :: diag)) ∧
       List.filter is_console diag = diag) ∧
  (∀ adminId action,
     Env.auth e = inr adminId →
     resolved_role e s adminId = Some "moderator" →
     fst (gated e ADMIN_PERMISSIONS.DELETE_TRANSACTIONS action s) =
       Ok (rejection "Insufficient permissions" 403) ∧
     db (snd (gated e ADMIN_PERMISSIONS.DELETE_TRANSACTIONS action s)) = db s ∧
     ∃ evs,
       trace (snd (gated e ADMIN_PERMISSIONS.DELETE_TRANSACTIONS action s)) =
         trace s ++ evs ∧
       List.filter is_write evs = []).
Proof.
  assert (∀ adminId permission action,
     Env.auth e = inr adminId →
     fst (hasAdminPermission e adminId permission s) = Ok false →
     ∃ found diag,
       gated e permission action s =
         (Ok (rejection "Insufficient permissions" 403),
          mkState (db s)
            (trace s ++ EvSelect "profiles" adminId found :: diag)) ∧
       List.filter is_console diag = diag) as Hdeny.
  { intros adminId permission action Hauth Hno.
    destruct (gated_cases e permission action s)
      as [(resp & Hauth' & _)
         | (a & found & diag & Hauth' & Hdiag & [[_ ->] | [Hyes _]])].
    - congruence.
    - assert (a = adminId) as -> by congruence. eauto.
    - assert (a = adminId) as -> by congruence. congruence. }
  split; [| split; [done |]].
  - intros h id response. apply run_refused.
  - intros adminId action Hauth Hrole.
    destruct (Hdeny adminId ADMIN_PERMISSIONS.DELETE_TRANSACTIONS action Hauth)
      as (found & diag & -> & Hdiag).
    { unfold hasAdminPermission.
      by rewrite (hasAdminPermissionIn_resolved _ _ _ _ _ _ Hrole). }
    simpl. split; [done |]. split; [done |].
    eexists. split; [done |]. simpl. by apply filter_write_console.
Qed.

(** ** The transaction lifecycle: C1 *)

Ltac absurd_status :=
  repeat match goal with
         | H : context [project None _] |- _ => rewrite project_all in H
         end;
  match goal with
  | Hst : ?cur !! "status" = Some _,
    Hif : is_str _ (?cur !! "status") = _ |- _ =>
      rewrite Hst in Hif; discriminate Hif
  end.

Lemma cancel_completed e id a s cur :
  db_select (db s) "escrow_transactions" id = Some cur →
  cur !! "status" = Some (VStr "completed") →
  ∃ evs,
    snd (Transactions.cancel e id a s) = mkState (db s) (trace s ++ evs) ∧
    List.filter is_write evs = [] ∧
    (Env.entity_read e = Proceed →
     fst (Transactions.cancel e id a s) =
       Ok (rejection "Cannot cancel completed transaction" 400)).
Proof.
  destruct e as [auth su body now xff xri ua o1 o2 o3 o4 up].
  destruct s as [d tr]. simpl. intros Hsel Hst.
  run_handler; try absurd_status.
  all: grown; split; [reflexivity |]; done.
Qed.

(** C1, amended.  A cancel request on a transaction whose stored status is
    [completed] never writes: whoever the actor is and whatever happens on
    the way, the store is left as it was and only reads and diagnostics are
    logged; when the actor holds [CANCEL_TRANSACTIONS] and the read goes
    through, the answer is 400, "Cannot cancel completed transaction". *)
Theorem C1_cancel_completed_rejected
    (e : Env.t) (id : string) (s : State) (cur : Row) :
  db_select (db s) "escrow_transactions" id = Some cur →
  cur !! "status" = Some (VStr "completed") →
  ∃ evs,
    snd (Transactions.DELETE e id s) = mkState (db s) (trace s ++ evs) ∧
    List.filter is_write evs = [] ∧
    (∀ adminId,
       Env.auth e = inr adminId →
       fst (hasAdminPermission e adminId
              ADMIN_PERMISSIONS.CANCEL_TRANSACTIONS s) = Ok true →
       Env.entity_read e = Proceed →
       fst (Transactions.DELETE e id s) =
         Ok (rejection "Cannot cancel completed transaction" 400)).
Proof.
  intros Hsel Hst. unfold Transactions.DELETE.
  destruct (gated_cases e ADMIN_PERMISSIONS.CANCEL_TRANSACTIONS
              (Transactions.cancel e id) s)
    as [(resp & Hauth & ->)
       | (a & found & diag & Hauth & Hdiag & [[Hno ->] | [Hyes ->]])].
  - exists []. simpl. rewrite app_nil_r. destruct s.
    repeat split. intros ? ?. congruence.
  - exists (EvSelect "profiles" a found :: diag). simpl.
    split; [done |]. split; [by apply filter_write_console |].
    intros a' [= <-]%(eq_trans (eq_sym Hauth)). congruence.
  - destruct (cancel_completed e id a
      (mkState (db s) (trace s ++ EvSelect "profiles" a found :: diag)) cur
      Hsel Hst) as (evs & Hs' & Hw & Hresp).
    exists ((EvSelect "profiles" a found :: diag) ++ evs).
    rewrite Hs'. simpl. split; [by rewrite <- app_assoc |].
    split.
    { rewrite List.filter_app, Hw, app_nil_r. by apply filter_write_console. }
    intros a' [= <-]%(eq_trans (eq_sym Hauth)) _ Hread. by apply Hresp.
Qed.

(** ** Self-action guards *)

(** X28.  How far the self guards of the user handlers reach.  For a
    request whose session user is the target account: an update whose
    [role] is truthy and is not ["admin"] writes nothing, and is answered
    with 400, "Cannot change your own admin role", once the account has
    been read; a deactivation leaves the state untouched and is answered
    with 400, "Cannot deactivate your own account". *)
Theorem self_guard_on_truthy_role (e : Env.t) (id : string) (s : State) :
  Env.session_user e = Some id →
  (∀ upd,
     Env.body e = Some upd →
     truthy (upd !! "role") = true →
     is_str "admin" (upd !! "role") = false →
     ∃ evs,
       snd (Users.PUT e id s) = mkState (db s) (trace s ++ evs) ∧
       List.filter is_write evs = [] ∧
       (∀ adminId cur,
          Env.auth e = inr adminId →
          Env.entity_read e = Proceed →
          db_select (db s) "profiles" id = Some cur →
          fst (Users.PUT e id s) =
            Ok (rejection "Cannot change your own admin role" 400))) ∧
  snd (Users.DELETE e id s) = s ∧
  (∀ adminId,
     Env.auth e = inr adminId →
     fst (Users.DELETE e id s) =
       Ok (rejection "Cannot deactivate your own account" 400)).
Proof.
  destruct e as [auth su body now xff xri ua o1 o2 o3 o4 up].
  destruct s as [d tr]. simpl. intros ->. split; [| split].
  - intros upd -> Htruthy Hother.
    assert (String.eqb id id && truthy (upd !! "role")
            && negb (is_str "admin" (upd !! "role")) = true) as Hguard.
    { by rewrite Htruthy, Hother, String.eqb_refl. }
    run_handler; try congruence.
    all: grown; split; [reflexivity |].
    all: intros; first [done | congruence].
  - unfold Users.DELETE. simpl. rewrite String.eqb_refl. by run_handler.
  - intros a ->. unfold Users.DELETE. simpl. rewrite String.eqb_refl.
    by run_handler.
Qed.

(** ** The audit trail: C3, C8 *)

(** C3, amended.  Every request to a transaction, user or data-table
    handler follows the audit discipline: if it commits a write, it commits
    exactly one, and exactly one insert into [audit_logs] is attempted,
    after the write and before the handler returns, with the entity read
    before the write as [old_value] and the entity as written as
    [new_value]; that insert adds the row when the append succeeds.  If no
    write is committed, no audit row is attempted and the store is
    unchanged. *)
Theorem C3_audit_after_persist
    (h : handler) (e : Env.t) (id : string) (s : State) :
  audited h = true → follows_discipline e id (run h e id) s.
Proof.
  destruct h; try discriminate; intros _; simpl.
  - apply gated_discipline. intros a s1. apply update_discipline.
  - apply gated_discipline. intros a s1. apply cancel_discipline.
  - apply Users_PUT_discipline.
  - apply Users_DELETE_discipline.
  - apply Data_PUT_discipline.
  - apply Data_DELETE_discipline.
Qed.

Lemma update_audit_failure e id a s evs t i p row' :
  Env.audit_append e ≠ Proceed →
  trace (snd (Transactions.update e id a s)) = trace s ++ evs →
  EvUpdate t i p (Some row') ∈ evs →
  Transactions.update e id a s =
    (Ok (NextResponse.json (VObj row') 200),
     mkState (db_update (db s) t i p) (trace s ++ evs)) ∧
  audit_failure_logged e evs.
Proof.
  destruct e as [auth su body now xff xri ua o1 o2 o3 o4 up].
  destruct s as [d tr]. unfold audit_failure_logged. simpl. intros Hne.
  run_handler; intros Htr Hin; added_in Htr; pick_event Hin; done.
Qed.

Lemma cancel_audit_failure e id a s evs t i p row' :
  Env.audit_append e ≠ Proceed →
  trace (snd (Transactions.cancel e id a s)) = trace s ++ evs →
  EvUpdate t i p (Some row') ∈ evs →
  Transactions.cancel e id a s =
    (Ok (NextResponse.json
           (VObj {[ "message" := VStr "Transaction cancelled successfully";
                    "transaction" := VObj row' ]}) 200),
     mkState (db_update (db s) t i p) (trace s ++ evs)) ∧
  audit_failure_logged e evs.
Proof.
  destruct e as [auth su body now xff xri ua o1 o2 o3 o4 up].
  destruct s as [d tr]. unfold audit_failure_logged. simpl. intros Hne.
  run_handler; intros Htr Hin; added_in Htr; pick_event Hin; done.
Qed.

(** C8, amended.  On the transaction handlers, whose audit append is
    [logAdminAction]: when the update has been committed and the audit
    append fails, by rejecting or by resolving with an error, the handler
    still answers 200 with the updated row, and the final store is the
    store as the update left it; a rejected append is reported by the
    diagnostic of [logAdminAction], the last event of the request. *)
Theorem C8_audit_failure_tolerated
    (e : Env.t) (id : string) (s : State)
    (evs : list event) (t i : string) (p row' : Row) :
  Env.audit_append e ≠ Proceed →
  EvUpdate t i p (Some row') ∈ evs →
  (trace (snd (Transactions.PUT e id s)) = trace s ++ evs →
   Transactions.PUT e id s =
     (Ok (NextResponse.json (VObj row') 200),
      mkState (db_update (db s) t i p) (trace s ++ evs)) ∧
   audit_failure_logged e evs) ∧
  (trace (snd (Transactions.DELETE e id s)) = trace s ++ evs →
   Transactions.DELETE e id s =
     (Ok (NextResponse.json
            (VObj {[ "message" := VStr "Transaction cancelled successfully";
                     "transaction" := VObj row' ]}) 200),
      mkState (db_update (db s) t i p) (trace s ++ evs)) ∧
   audit_failure_logged e evs).
Proof.
  intros Hne Hin. split; intros Htr.
  - destruct (gated_write _ _ _ _ _ _ (update_grows e id) Htr Hin eq_refl)
      as (a & pre & evs1 & _ & _ & Hrun & -> & Htr1 & Hin1).
    unfold Transactions.PUT. rewrite Hrun.
    destruct (update_audit_failure e id a _ evs1 t i p row' Hne Htr1 Hin1)
      as [-> Hlog].
    simpl. rewrite <- app_assoc. split; [done |].
    intros Hthrow. by apply last_app_nonempty, Hlog.
  - destruct (gated_write _ _ _ _ _ _ (cancel_grows e id) Htr Hin eq_refl)
      as (a & pre & evs1 & _ & _ & Hrun & -> & Htr1 & Hin1).
    unfold Transactions.DELETE. rewrite Hrun.
    destruct (cancel_audit_failure e id a _ evs1 t i p row' Hne Htr1 Hin1)
      as [-> Hlog].
    simpl. rewrite <- app_assoc. split; [done |].
    intros Hthrow. by apply last_app_nonempty, Hlog.
Qed.

(** ** Update payloads: C4 *)

Lemma data_put_payload e table id s evs t i p res :
  trace (snd (Data.PUT e table id s)) = trace s ++ evs →
  EvUpdate t i p res ∈ evs →
  ∃ upd,
    Env.body e = Some upd ∧ t = table ∧ i = id ∧
    p = Data.finalUpdateData e upd ∧
    (∀ r, res = Some r →
          ∃ cur, db_select (db s) table id = Some cur ∧
                 r = patched p cur ∧
                 r ∈ rows_of (db (snd (Data.PUT e table id s))) table).
Proof.
  destruct e as [auth su body now xff xri ua o1 o2 o3 o4 up].
  destruct s as [d tr]. simpl.
  run_handler; intros Htr Hin; added_in Htr; pick_event Hin.
  all: eexists; do 4 (split; [reflexivity |]).
  all: intros r [= <-]; eexists; do 2 (split; [reflexivity |]).
  all: rewrite ?rows_of_insert; repeat case_decide; subst;
       rewrite ?elem_of_app; eauto using db_update_stores.
Qed.

Lemma users_put_payload e id s evs t i p res :
  trace (snd (Users.PUT e id s)) = trace s ++ evs →
  EvUpdate t i p res ∈ evs →
  ∃ upd, Env.body e = Some upd ∧ p = <["updated_at" := VStr (Env.now e)]> upd.
Proof.
  destruct e as [auth su body now xff xri ua o1 o2 o3 o4 up].
  destruct s as [d tr]. simpl.
  run_handler; intros Htr Hin; added_in Htr; pick_event Hin; eauto.
Qed.

Lemma update_payload e id a s evs t i p res :
  trace (snd (Transactions.update e id a s)) = trace s ++ evs →
  EvUpdate t i p res ∈ evs →
  ∃ upd, Env.body e = Some upd ∧ p = <["updated_at" := VStr (Env.now e)]> upd.
Proof.
  destruct e as [auth su body now xff xri ua o1 o2 o3 o4 up].
  destruct s as [d tr]. simpl.
  run_handler; intros Htr Hin; added_in Htr; pick_event Hin; eauto.
Qed.

Lemma transactions_put_payload e id s evs t i p res :
  trace (snd (Transactions.PUT e id s)) = trace s ++ evs →
  EvUpdate t i p res ∈ evs →
  ∃ upd, Env.body e = Some upd ∧ p = <["updated_at" := VStr (Env.now e)]> upd.
Proof.
  intros Htr Hin.
  destruct (gated_write _ _ _ _ _ _ (update_grows e id) Htr Hin eq_refl)
    as (a & pre & evs1 & _ & _ & Hrun & -> & Htr1 & Hin1).
  exact (update_payload e id a _ evs1 t i p res Htr1 Hin1).
Qed.

(** C4, amended.  Whenever the generic data handler sends an update to
    storage, the payload is the request body without [id] and
    [created_at] and with [updated_at] set to the current time, every other
    field being as in the body; the row that results keeps the [id] and
    [created_at] it had.  Whenever the transaction or the user handler
    sends an update, the payload is the whole request body with
    [updated_at] set to the current time. *)
Theorem C4_update_payloads
    (e : Env.t) (table id : string) (s : State)
    (evs : list event) (t i : string) (p : Row) (res : option Row) :
  EvUpdate t i p res ∈ evs →
  (trace (snd (Data.PUT e table id s)) = trace s ++ evs →
   ∃ upd,
     Env.body e = Some upd ∧ t = table ∧ i = id ∧
     (∀ k, p !! k =
           if decide (k = "updated_at") then Some (VStr (Env.now e))
           else if decide (k = "id" ∨ k = "created_at") then None
           else upd !! k) ∧
     (∀ r, res = Some r →
           ∃ cur, db_select (db s) table id = Some cur ∧
                  r ∈ rows_of (db (snd (Data.PUT e table id s))) table ∧
                  r !! "id" = cur !! "id" ∧
                  r !! "created_at" = cur !! "created_at")) ∧
  (trace (snd (Transactions.PUT e id s)) = trace s ++ evs ∨
   trace (snd (Users.PUT e id s)) = trace s ++ evs →
   ∃ upd,
     Env.body e = Some upd ∧
     p = <["updated_at" := VStr (Env.now e)]> upd).
Proof.
  intros Hin. split.
  - intros Htr.
    destruct (data_put_payload e table id s evs t i p res Htr Hin)
      as (upd & Hbody & -> & -> & -> & Hres).
    exists upd. do 3 (split; [done |]).
    split; [intros k; apply finalUpdateData_lookup |].
    intros r Hr. destruct (Hres r Hr) as (cur & Hsel & -> & Hstored).
    exists cur. do 2 (split; [done |]).
    by rewrite !patched_keeps by (by rewrite finalUpdateData_lookup).
  - intros [Htr | Htr].
    + by eapply transactions_put_payload.
    + by eapply users_put_payload.
Qed.

(** ** Account rows: C9 *)

Ltac never_shrinks :=
  match goal with
  | |- no_shrink (db ?s) (db (snd (_ ?e _ ?s))) =>
      destruct e as [auth su body now xff xri ua o1 o2 o3 o4 up];
      destruct s as [d tr]; run_handler; auto with shrink
  | |- no_shrink (db ?s) (db (snd (_ ?e _ _ ?s))) =>
      destruct e as [auth su body now xff xri ua o1 o2 o3 o4 up];
      destruct s as [d tr]; run_handler; auto with shrink
  end.

Lemma gated_no_shrink e p action s :
  (∀ a s1, no_shrink (db s1) (db (snd (action a s1)))) →
  no_shrink (db s) (db (snd (gated e p action s))).
Proof.
  intros H.
  destruct (gated_cases e p action s)
    as [(resp & _ & ->)
       | (a & found & diag & _ & _ & [[_ ->] | [_ ->]])];
    [apply no_shrink_refl .. |].
  apply (H a (mkState (db s) _)).
Qed.

Lemma run_no_shrink h e id s :
  deletes h = false → no_shrink (db s) (db (snd (run h e id s))).
Proof.
  destruct h; try discriminate; intros _; simpl.
  - apply gated_no_shrink. intros a s1. never_shrinks.
  - apply gated_no_shrink. intros a s1. never_shrinks.
  - never_shrinks.
  - never_shrinks.
  - never_shrinks.
  - never_shrinks.
Qed.

(** C9, amended.  The deactivate operation only ever writes an update of
    [profiles] with the payload [{ status: "inactive", updated_at }] and an
    audit row, and after it every column other than [status] and
    [updated_at] reads the same in every row of [profiles].  No handler
    other than the row deletion of the data handler and the deletion of
    the [user_profiles] handler removes a row: after any other handler, no
    table has fewer rows than before. *)
Theorem C9_deactivate_keeps_row (e : Env.t) (id : string) (s : State) :
  (∃ evs,
     trace (snd (Users.DELETE e id s)) = trace s ++ evs ∧
     (∀ ev, ev ∈ evs → is_write ev = true →
        (∃ res, ev = EvUpdate "profiles" id (deactivation e) res) ∨
        (∃ row ok, ev = EvInsert "audit_logs" row ok))) ∧
  (∀ k, k ≠ "status" → k ≠ "updated_at" →
     map (fun r : Row => r !! k)
         (rows_of (db (snd (Users.DELETE e id s))) "profiles") =
     map (fun r : Row => r !! k) (rows_of (db s) "profiles")) ∧
  (∀ h, deletes h = false → no_shrink (db s) (db (snd (run h e id s)))).
Proof.
  split; [| split].
  - destruct e as [auth su body now xff xri ua o1 o2 o3 o4 up].
    destruct s as [d tr]. unfold deactivation. simpl.
    run_handler; grown; intros ev Hin Hw.
    all: repeat (apply elem_of_cons in Hin as [-> | Hin]; [by eauto |]).
    all: by apply elem_of_nil in Hin.
  - intros k Hk1 Hk2.
    pose proof (deactivation_lookup e k Hk1 Hk2) as Hp.
    destruct e as [auth su body now xff xri ua o1 o2 o3 o4 up].
    destruct s as [d tr]. unfold deactivation in Hp. simpl in *.
    run_handler; try done.
    all: rewrite ?rows_of_insert, ?decide_False by done.
    all: by apply column_after_update.
  - intros h. apply run_no_shrink.
Qed.

(** ** Concrete runs *)

Import Scenario.

(** C1 as stated fails: an update request moves a completed transaction
    back to [pending], and a cancel request on a cancelled transaction is
    accepted. *)
Lemma C1_terminal_status_overwritten :
  let reopen :=
    Transactions.PUT
      (request "a1" (Some {[ "status" := VStr "pending" ]}) Proceed)
      "t1" start in
  let recancel := Transactions.DELETE (request "a1" None Proceed) "t2" start in
  status_of store "escrow_transactions" "t1" = Some (VStr "completed") ∧
  fst reopen =
    Ok (NextResponse.json
          (VObj (<["status" := VStr "pending"]>
                   (<["updated_at" := VStr clock]> completed_transaction)))
          200) ∧
  status_of (db (snd reopen)) "escrow_transactions" "t1" =
    Some (VStr "pending") ∧
  status_of store "escrow_transactions" "t2" = Some (VStr "cancelled") ∧
  fst recancel =
    Ok (NextResponse.json
          (VObj {[ "message" := VStr "Transaction cancelled successfully";
                   "transaction" :=
                     VObj (<["updated_at" := VStr clock]>
                             cancelled_transaction) ]})
          200).
Proof. cbv zeta. repeat apply conj; vm_compute; reflexivity. Qed.

Lemma C1_witness :
  fst (Transactions.DELETE (request "a1" None Proceed) "t1" start) =
    Ok (rejection "Cannot cancel completed transaction" 400) ∧
  db (snd (Transactions.DELETE (request "a1" None Proceed) "t1" start)) = store.
Proof.
  destruct (C1_cancel_completed_rejected (request "a1" None Proceed) "t1" start
              completed_transaction)
    as (evs & Hs & _ & Hr); [vm_compute; reflexivity .. |].
  split.
  - apply (Hr "a1"); vm_compute; reflexivity.
  - rewrite Hs. reflexivity.
Defined.

(** C2.  The code breaks the claim.  The session user [a1], an active
    admin, sends updates of the own account to the user handler.  A [role]
    that is the empty string, [null] or [0] passes the guard, which tests
    the truthiness of the field: the request is answered with 200 and the
    role is stored, so that the account is no admin any more.  An update
    of [status] to [inactive] is not guarded at all, and neither is the
    update of the own [role] through the generic data handler. *)
Lemma C2_self_guard_bypassed :
  let as_admin := request "a1" None Proceed in
  let put body := Users.PUT (request "a1" (Some body) Proceed) "a1" start in
  let role_after (out : result NextResponse.t * State) :=
    db_select (db (snd out)) "profiles" "a1" ≫= (.!! "role") in
  let demote :=
    Data.PUT (request "a1" (Some {[ "role" := VStr "user" ]}) Proceed)
             "profiles" "a1" start in
  resolved_role as_admin start "a1" = Some "admin" ∧
  status_of store "profiles" "a1" = Some (VStr "active") ∧
  fst (put {[ "role" := VStr "" ]}) =
    Ok (NextResponse.json
          (VObj (<["role" := VStr ""]>
                   (<["updated_at" := VStr clock]> admin_account)))
          200) ∧
  role_after (put {[ "role" := VStr "" ]}) = Some (VStr "") ∧
  fst (hasAdminPermission as_admin "a1" ADMIN_PERMISSIONS.EDIT_USERS
         (snd (put {[ "role" := VStr "" ]}))) = Ok false ∧
  NextResponse.status <$>
    (match fst (put {[ "role" := VNull ]}) with
     | Ok r => Some r | Thrown => None end) = Some 200 ∧
  role_after (put {[ "role" := VNull ]}) = Some VNull ∧
  NextResponse.status <$>
    (match fst (put {[ "role" := VNum 0 ]}) with
     | Ok r => Some r | Thrown => None end) = Some 200 ∧
  role_after (put {[ "role" := VNum 0 ]}) = Some (VNum 0) ∧
  fst (put {[ "status" := VStr "inactive" ]}) =
    Ok (NextResponse.json
          (VObj (<["status" := VStr "inactive"]>
                   (<["updated_at" := VStr clock]> admin_account)))
          200) ∧
  status_of (db (snd (put {[ "status" := VStr "inactive" ]}))) "profiles" "a1"
    = Some (VStr "inactive") ∧
  fst demote =
    Ok (NextResponse.json
          (VObj (<["role" := VStr "user"]>
                   (<["updated_at" := VStr clock]> admin_account)))
          200) ∧
  resolved_role as_admin (snd demote) "a1" = Some "user".
Proof. cbv zeta. repeat apply conj; vm_compute; reflexivity. Qed.

Lemma self_guard_on_truthy_role_witness :
  let demote :=
    Users.PUT (request "a1" (Some {[ "role" := VStr "user" ]}) Proceed)
              "a1" start in
  fst demote = Ok (rejection "Cannot change your own admin role" 400) ∧
  db (snd demote) = store ∧
  Users.DELETE (request "a1" None Proceed) "a1" start =
    (Ok (rejection "Cannot deactivate your own account" 400), start).
Proof.
  destruct (self_guard_on_truthy_role
              (request "a1" (Some {[ "role" := VStr "user" ]}) Proceed)
              "a1" start eq_refl) as (Hput & _ & _).
  destruct (Hput {[ "role" := VStr "user" ]})
    as (evs & Hs & _ & Hr); [reflexivity | reflexivity | reflexivity |].
  destruct (self_guard_on_truthy_role (request "a1" None Proceed) "a1" start
              eq_refl)
    as (_ & Hs' & Hr').
  simpl. split; [| split].
  - apply (Hr "a1" admin_account); vm_compute; reflexivity.
  - rewrite Hs. reflexivity.
  - specialize (Hr' "a1" eq_refl).
    destruct (Users.DELETE (request "a1" None Proceed) "a1" start).
    simpl in *. congruence.
Defined.

(** C3 as stated fails: the [user_profiles] update persists and writes no
    audit record, and a transaction update persists with no audit record
    when the audit insert resolves with an error. *)
Lemma C3_mutation_without_audit_record :
  let approve :=
    UserProfiles.PUT
      (request "a1" (Some {[ "verification_status" := VStr "approved" ]})
               Proceed)
      "u1" start in
  let edit :=
    Transactions.PUT
      (request "a1" (Some {[ "status" := VStr "in_progress" ]})
               (Fail "insert failed"))
      "t3" start in
  fst approve =
    Ok (NextResponse.json
          (VArr [VObj (<["verification_status" := VStr "approved"]>
                         user_profile)])
          200) ∧
  rows_of (db (snd approve)) "user_profiles" =
    [<["verification_status" := VStr "approved"]> user_profile] ∧
  rows_of (db (snd approve)) "audit_logs" = [] ∧
  List.filter is_write (trace (snd approve)) =
    [EvUpdateAll "user_profiles" "u1"
       {[ "verification_status" := VStr "approved" ]}
       (Some [<["verification_status" := VStr "approved"]> user_profile])] ∧
  fst edit =
    Ok (NextResponse.json
          (VObj (<["status" := VStr "in_progress"]>
                   (<["updated_at" := VStr clock]> pending_transaction)))
          200) ∧
  status_of (db (snd edit)) "escrow_transactions" "t3" =
    Some (VStr "in_progress") ∧
  rows_of (db (snd edit)) "audit_logs" = [].
Proof. cbv zeta. repeat apply conj; vm_compute; reflexivity. Qed.

Lemma C3_witness :
  follows_discipline
    (request "a1" (Some {[ "status" := VStr "in_progress" ]}) Proceed) "t3"
    (Transactions.PUT
       (request "a1" (Some {[ "status" := VStr "in_progress" ]}) Proceed) "t3")
    start.
Proof.
  exact (C3_audit_after_persist PutTransaction
           (request "a1" (Some {[ "status" := VStr "in_progress" ]}) Proceed)
           "t3" start eq_refl).
Defined.

(** C4 as stated fails: the transaction update sends [id] and [created_at]
    to storage as they came, and the row takes them. *)
Lemma C4_transaction_update_keeps_system_fields :
  let payload : Row :=
    {[ "id" := VStr "t9"; "created_at" := VStr "1999-12-31T00:00:00.000Z" ]} in
  let edit :=
    Transactions.PUT (request "a1" (Some payload) Proceed) "t3" start in
  let row : Row :=
    {[ "id" := VStr "t9"; "status" := VStr "pending";
       "created_at" := VStr "1999-12-31T00:00:00.000Z";
       "updated_at" := VStr clock ]} in
  List.filter is_write (trace (snd edit)) =
    [ EvUpdate "escrow_transactions" "t3"
        (<["updated_at" := VStr clock]> payload) (Some row);
      EvInsert "audit_logs"
        (audit_row "UPDATE_TRANSACTION" "transaction" (Some "t3")
           (VObj pending_transaction) (VObj row) "a1" VNull VNull)
        true ] ∧
  fst edit = Ok (NextResponse.json (VObj row) 200) ∧
  db_select (db (snd edit)) "escrow_transactions" "t3" = None ∧
  db_select (db (snd edit)) "escrow_transactions" "t9" = Some row.
Proof. cbv zeta. repeat apply conj; vm_compute; reflexivity. Qed.

Lemma C4_witness :
  let body : Row :=
    {[ "id" := VStr "t9"; "created_at" := VStr "1999-12-31T00:00:00.000Z";
       "status" := VStr "disputed" ]} in
  let e := request "a1" (Some body) Proceed in
  let s' := snd (Data.PUT e "escrow_transactions" "t3" start) in
  ∃ upd,
    Env.body e = Some upd ∧
    "escrow_transactions" = "escrow_transactions" ∧ "t3" = "t3" ∧
    (∀ k, Data.finalUpdateData e body !! k =
          if decide (k = "updated_at") then Some (VStr (Env.now e))
          else if decide (k = "id" ∨ k = "created_at") then None
          else upd !! k) ∧
    (∀ r, Some (patched (Data.finalUpdateData e body) pending_transaction)
          = Some r →
          ∃ cur, db_select store "escrow_transactions" "t3" = Some cur ∧
                 r ∈ rows_of (db s') "escrow_transactions" ∧
                 r !! "id" = cur !! "id" ∧
                 r !! "created_at" = cur !! "created_at").
Proof.
  intros body e s'.
  refine (proj1 (C4_update_payloads e "escrow_transactions" "t3" start
                   (trace s') "escrow_transactions" "t3"
                   (Data.finalUpdateData e body)
                   (Some (patched (Data.finalUpdateData e body)
                                  pending_transaction)) _) eq_refl).
  apply list_elem_of_In. vm_compute. right. left. reflexivity.
Defined.

(** C8 as stated fails: where the audit row is inserted inline, a rejected
    insert turns the answer of a committed update into an error; and an
    insert that resolves with an error is reported by nobody. *)
Lemma C8_audit_failure_aborts_or_goes_unreported :
  let suspend :=
    Users.PUT (request "a1" (Some {[ "status" := VStr "suspended" ]}) Throw)
              "m1" start in
  let edit :=
    Transactions.PUT
      (request "a1" (Some {[ "status" := VStr "in_progress" ]})
               (Fail "insert failed"))
      "t3" start in
  fst suspend = Ok (rejection "Invalid request data" 400) ∧
  status_of (db (snd suspend)) "profiles" "m1" = Some (VStr "suspended") ∧
  status_of (db (snd edit)) "escrow_transactions" "t3" =
    Some (VStr "in_progress") ∧
  rows_of (db (snd edit)) "audit_logs" = [] ∧
  List.filter is_console (trace (snd edit)) = [].
Proof. cbv zeta. repeat apply conj; vm_compute; reflexivity. Qed.

Lemma C8_witness :
  let e := request "a1" (Some {[ "status" := VStr "in_progress" ]}) Throw in
  let p : Row := <["updated_at" := VStr clock]> {[ "status" := VStr "in_progress" ]} in
  let row' := patched p pending_transaction in
  let evs := trace (snd (Transactions.PUT e "t3" start)) in
  Transactions.PUT e "t3" start =
    (Ok (NextResponse.json (VObj row') 200),
     mkState (db_update store "escrow_transactions" "t3" p) ([] ++ evs)) ∧
  audit_failure_logged e evs.
Proof.
  intros e p row' evs.
  refine (proj1 (C8_audit_failure_tolerated e "t3" start evs
                   "escrow_transactions" "t3" p row' _ _) eq_refl).
  - discriminate.
  - apply list_elem_of_In. vm_compute. right. right. left. reflexivity.
Defined.

(** C9 as stated fails: the row deletion of the data handler removes an
    account row from [profiles], and the [user_profiles] deletion removes
    a profile row. *)
Lemma C9_account_row_deleted :
  let remove := Data.DELETE (request "a1" None Proceed) "profiles" "m1" start in
  let purge := UserProfiles.DELETE (request "a1" None Proceed) "u1" start in
  rows_of store "profiles" = [admin_account; moderator_account] ∧
  fst remove =
    Ok (NextResponse.json
          (VObj {[ "message" := VStr "Row deleted successfully" ]}) 200) ∧
  rows_of (db (snd remove)) "profiles" = [admin_account] ∧
  fst purge = Ok (NextResponse.json (VObj {[ "success" := VBool true ]}) 200) ∧
  rows_of (db (snd purge)) "user_profiles" = [].
Proof. cbv zeta. repeat apply conj; vm_compute; reflexivity. Qed.

Lemma C9_witness :
  let e := request "a1" None Proceed in
  map (fun r : Row => r !! "id")
      (rows_of (db (snd (Users.DELETE e "m1" start))) "profiles") =
  map (fun r : Row => r !! "id") (rows_of store "profiles") ∧
  no_shrink store (db (snd (Users.DELETE e "m1" start))).
Proof.
  intros e.
  destruct (C9_deactivate_keeps_row e "m1" start) as (_ & Hcol & Hrun).
  split.
  - apply Hcol; discriminate.
  - apply (Hrun DeleteUser eq_refl).
Defined.


Lemma C6_witness :
  fst (hasAdminPermissionIn ∅ (request "a1" None Proceed) "a1"
         "launch_rockets" start) = Ok true ∧
  fst (hasAdminPermission (request "a1" None Proceed) "a1"
         "launch_rockets" start) = Ok true.
Proof.
  apply (C6_top_level_bypass ∅ (request "a1" None Proceed) start "a1"
           "launch_rockets").
  vm_compute. reflexivity.
Defined.

Lemma C7_witness :
  let e := request "m1" None Proceed in
  fst (gated e ADMIN_PERMISSIONS.DELETE_TRANSACTIONS
         (Transactions.cancel e "t3") start) =
    Ok (rejection "Insufficient permissions" 403) ∧
  db (snd (gated e ADMIN_PERMISSIONS.DELETE_TRANSACTIONS
             (Transactions.cancel e "t3") start)) = store.
Proof.
  intros e.
  destruct (C7_denied_request_no_effect e start) as (_ & _ & H).
  destruct (H "m1" (Transactions.cancel e "t3") eq_refl)
    as (Hr & Hd & _); [vm_compute; reflexivity |].
  by split.
Defined.

Lemma C10_witness :
  fst (hasAdminPermission (request "a1" None Proceed) "a1"
         "launch_rockets" start) = Ok true ∧
  fst (getAdminPermissions (request "a1" None Proceed) "a1" start) =
    Ok ADMIN_PERMISSIONS.values.
Proof.
  destruct (C10_bypass_exceeds_listing (request "a1" None Proceed) start "a1")
    as (Hall & Hlist & _); [vm_compute; reflexivity |].
  split; [apply Hall | apply Hlist].
Defined.

(** * Further properties *)

#[local] Arguments TransactionCreate.record : simpl never.
#[local] Arguments VerificationSubmit.record : simpl never.

(** ** More on the guard *)

Lemma getAdminPermissionsIn_resolved roles e s a r :
  resolved_role e s a = Some r →
  fst (getAdminPermissionsIn roles e a s) =
  Ok (if String.eqb r "admin" then ADMIN_PERMISSIONS.values
      else match roles !! toUpperCase e r with
           | Some role => map AdminPermission.id (AdminRole.permissions role)
           | None => []
           end).
Proof.
  unfold resolved_role, getAdminPermissionsIn, select_single. unfold_M.
  destruct (Env.role_lookup e); try discriminate.
  destruct (db_select (db s) "profiles" a) as [row |]; try discriminate.
  intros H. simpl. rewrite project_role.
  destruct (row !! "role") as [[] |]; try discriminate.
  injection H as ->. simpl.
  destruct (String.eqb r "admin"); [done |]. simpl.
  by destruct (roles !! toUpperCase e r).
Qed.

Lemma getAdminPermissionsIn_unresolved roles e s a :
  resolved_role e s a = None →
  fst (getAdminPermissionsIn roles e a s) = Ok [].
Proof.
  unfold resolved_role, getAdminPermissionsIn, select_single. unfold_M.
  destruct (Env.role_lookup e); try done.
  destruct (db_select (db s) "profiles" a) as [row |]; try done.
  intros H. simpl. rewrite project_role.
  by destruct (row !! "role") as [[] |].
Qed.

(** Every id in an entry of [ADMIN_ROLES] is a value of
    [ADMIN_PERMISSIONS]. *)
Lemma catalog_entries_known key role p :
  ADMIN_ROLES !! key = Some role →
  p ∈ map AdminPermission.id (AdminRole.permissions role) →
  p ∈ ADMIN_PERMISSIONS.values.
Proof.
  unfold ADMIN_ROLES. intros Hrole.
  assert (role = SUPER_ADMIN ∨ role = ADMIN ∨ role = MODERATOR) as Hcases.
  { repeat (apply lookup_insert_Some in Hrole as [[_ <-] | [_ Hrole]];
      [tauto |]).
    apply lookup_singleton_Some in Hrole as [_ <-]. tauto. }
  intros Hin%list_elem_of_In. apply list_elem_of_In.
  destruct Hcases as [-> | [-> | ->]]; vm_compute in Hin; vm_compute; tauto.
Qed.

(** X1.  For an actor whose role does not resolve to the literal [admin], the
    guard and the listing agree: both answer, and the guard grants a
    permission exactly when the listing of the actor contains it. *)
Theorem guard_agrees_with_listing
    (e : Env.t) (s : State) (adminId permission : string) :
  resolved_role e s adminId ≠ Some "admin" →
  ∃ b l,
    fst (hasAdminPermission e adminId permission s) = Ok b ∧
    fst (getAdminPermissions e adminId s) = Ok l ∧
    (b = true ↔ permission ∈ l).
Proof.
  intros Hne. unfold hasAdminPermission, getAdminPermissions.
  destruct (resolved_role e s adminId) as [r |] eqn:Hr.
  - rewrite (hasAdminPermissionIn_resolved _ _ _ _ _ r Hr),
      (getAdminPermissionsIn_resolved _ _ _ _ r Hr).
    destruct (String.eqb_spec r "admin") as [-> | _]; [done |].
    do 2 eexists. do 2 (split; [reflexivity |]).
    destruct (ADMIN_ROLES !! toUpperCase e r).
    + apply role_grants_elem.
    + split; [done |]. intros H. by apply elem_of_nil in H.
  - rewrite (hasAdminPermissionIn_unresolved _ _ _ _ _ Hr),
      (getAdminPermissionsIn_unresolved _ _ _ _ Hr).
    do 2 eexists. do 2 (split; [reflexivity |]).
    split; [done |]. intros H. by apply elem_of_nil in H.
Qed.

(** X2.  The listing always answers, lists nothing but values of
    [ADMIN_PERMISSIONS], and is empty for an actor who resolves to no
    role. *)
Theorem listing_within_catalog (e : Env.t) (s : State) (adminId : string) :
  ∃ l,
    fst (getAdminPermissions e adminId s) = Ok l ∧
    (∀ p, p ∈ l → p ∈ ADMIN_PERMISSIONS.values) ∧
    (resolved_role e s adminId = None → l = []).
Proof.
  unfold getAdminPermissions.
  destruct (resolved_role e s adminId) as [r |] eqn:Hr.
  - rewrite (getAdminPermissionsIn_resolved _ _ _ _ r Hr).
    eexists. split; [reflexivity |]. split; [| done].
    destruct (String.eqb r "admin"); [done |].
    destruct (ADMIN_ROLES !! toUpperCase e r) as [role |] eqn:Hrole.
    + intros p. by apply (catalog_entries_known (toUpperCase e r) role).
    + intros p H. by apply elem_of_nil in H.
  - rewrite (getAdminPermissionsIn_unresolved _ _ _ _ Hr).
    exists []. split; [done |]. split; [| done].
    intros p H. by apply elem_of_nil in H.
Qed.

(** X3.  For two actors whose roles are not the literal [admin]: when the
    roles have the same upper-case spelling the guard decides alike for
    both, and a permission that is no value of [ADMIN_PERMISSIONS] is
    denied. *)
Theorem role_spelling
    (e1 e2 : Env.t) (s1 s2 : State) (a1 a2 r1 r2 permission : string) :
  resolved_role e1 s1 a1 = Some r1 →
  resolved_role e2 s2 a2 = Some r2 →
  r1 ≠ "admin" → r2 ≠ "admin" →
  (toUpperCase e1 r1 = toUpperCase e2 r2 →
   fst (hasAdminPermission e1 a1 permission s1) =
   fst (hasAdminPermission e2 a2 permission s2)) ∧
  (permission ∉ ADMIN_PERMISSIONS.values →
   fst (hasAdminPermission e1 a1 permission s1) = Ok false).
Proof.
  intros H1 H2 Hn1 Hn2. unfold hasAdminPermission.
  rewrite (hasAdminPermissionIn_resolved _ _ _ _ _ _ H1),
    (hasAdminPermissionIn_resolved _ _ _ _ _ _ H2).
  apply String.eqb_neq in Hn1, Hn2. rewrite Hn1, Hn2. split.
  - by intros ->.
  - intros Hout.
    destruct (ADMIN_ROLES !! toUpperCase e1 r1) as [role |] eqn:Hrole; [| done].
    f_equal. apply not_true_is_false. intros Hg%role_grants_elem.
    by apply Hout, (catalog_entries_known (toUpperCase e1 r1) role).
Qed.

(** X4.  [requireAdminPermission] returns the decision of the guard, leaves
    the store as it was and attempts no write; the warning that names the
    actor and the permission is logged exactly when the permission is
    denied. *)
Theorem requireAdminPermission_warns_on_denial
    (e : Env.t) (s : State) (adminId permission : string) :
  ∃ b evs,
    requireAdminPermission e adminId permission s =
      (Ok b, mkState (db s) (trace s ++ evs)) ∧
    fst (hasAdminPermission e adminId permission s) = Ok b ∧
    List.filter is_write evs = [] ∧
    (EvConsole "warn"
       ("Admin " +:+ adminId +:+ " attempted to access " +:+ permission
        +:+ " without permission") ∈ evs ↔ b = false).
Proof.
  unfold requireAdminPermission, hasAdminPermission.
  destruct (hasAdminPermissionIn_effect ADMIN_ROLES e s adminId permission)
    as (b & found & diag & Hrun & Hdiag).
  unfold_M. rewrite Hrun. simpl.
  destruct b; simpl; rewrite <- ?app_assoc; simpl;
    do 2 eexists; (split; [reflexivity |]); (split; [reflexivity |]);
    destruct Hdiag as [-> | ->]; simpl; (split; [reflexivity |]).
  all: split; [| try done].
  all: try (intros Hin; pick_event Hin; fail).
  all: try done.
  all: intros _; apply list_elem_of_In; simpl; auto.
Qed.

Lemma split_word v rest :
  no_underscore v = true →
  split "_" (v +:+ "_" +:+ rest) = v :: split "_" rest.
Proof.
  induction v as [| c v IH]; simpl; [done |].
  intros [Hc Hv]%andb_prop. apply negb_true_iff in Hc. rewrite Hc.
  by rewrite (IH Hv).
Qed.

Lemma split_plain v : no_underscore v = true → split "_" v = [v].
Proof.
  induction v as [| c v IH]; simpl; [done |].
  intros [Hc Hv]%andb_prop. apply negb_true_iff in Hc. rewrite Hc.
  by rewrite (IH Hv).
Qed.

Lemma replace_underscores_app a b :
  replace_underscores (a +:+ b) = replace_underscores a +:+ replace_underscores b.
Proof. induction a as [| c a IH]; simpl; [done |]. by rewrite IH. Qed.

Lemma replace_underscores_plain v :
  no_underscore v = true → replace_underscores v = v.
Proof.
  induction v as [| c v IH]; simpl; [done |].
  intros [Hc Hv]%andb_prop. apply negb_true_iff in Hc. rewrite Hc.
  by rewrite (IH Hv).
Qed.

Lemma toUpperCase_ascii_app a b :
  toUpperCase_ascii (a +:+ b) = toUpperCase_ascii a +:+ toUpperCase_ascii b.
Proof. induction a as [| c a IH]; simpl; [done |]. by rewrite IH. Qed.

Lemma nth_or_nonempty parts i d s :
  parts !! i = Some s → s ≠ "" → nth_or parts i d = s.
Proof.
  intros H Hs. unfold nth_or. rewrite H.
  apply String.eqb_neq in Hs. by rewrite Hs.
Qed.

(** X5.  The record that [ADMIN_ROLES] builds for a permission id
    [verb_noun] of ASCII characters, both parts being non-empty and free of
    underscores: the name is the upper-cased id with a blank for the
    underscore, the action is [verb] and the resource [noun].  A further
    component changes neither action nor resource, and an id of one
    component has the resource [system]. *)
Theorem describe_verb_noun (verb noun tail : string) :
  ascii_only verb = true → ascii_only noun = true →
  no_underscore verb = true → no_underscore noun = true →
  verb ≠ "" → noun ≠ "" →
  describe (verb +:+ "_" +:+ noun) =
    AdminPermission.mk
      (verb +:+ "_" +:+ noun)
      (toUpperCase_ascii verb +:+ " " +:+ toUpperCase_ascii noun)
      ("Permission to " +:+ verb +:+ " " +:+ noun)
      noun verb ∧
  AdminPermission.action (describe (verb +:+ "_" +:+ noun +:+ "_" +:+ tail))
    = verb ∧
  AdminPermission.resource (describe (verb +:+ "_" +:+ noun +:+ "_" +:+ tail))
    = noun ∧
  AdminPermission.action (describe verb) = verb ∧
  AdminPermission.resource (describe verb) = "system".
Proof.
  intros _ _ Hv Hn Hv' Hn'.
  pose proof (String.eqb_neq verb "") as [_ Ev]. specialize (Ev Hv').
  pose proof (String.eqb_neq noun "") as [_ En]. specialize (En Hn').
  unfold describe.
  rewrite (split_word verb (noun +:+ "_" +:+ tail) Hv),
    (split_word noun tail Hn), (split_word verb noun Hv),
    (split_plain noun Hn), (split_plain verb Hv).
  rewrite !replace_underscores_app, !toUpperCase_ascii_app,
    (replace_underscores_plain verb Hv), (replace_underscores_plain noun Hn).
  unfold nth_or. simpl. rewrite Ev, En. done.
Qed.

(** X6.  [logAdminAction] always returns normally and changes no table but
    [audit_logs], to which it appends its row when the insert goes through
    and nothing otherwise; it attempts the one insert, and logs its
    diagnostic exactly when the insert rejects. *)
Theorem logAdminAction_contained
    (e : Env.t) (adminId action entityType : string) (entityId : option string)
    (oldValue newValue ipAddress userAgent : value) (s : State) :
  let row := audit_row action entityType entityId oldValue newValue adminId
               ipAddress userAgent in
  let run := logAdminAction e adminId action entityType entityId
               oldValue newValue ipAddress userAgent s in
  fst run = Ok tt ∧
  (∀ t, t ≠ "audit_logs" → rows_of (db (snd run)) t = rows_of (db s) t) ∧
  rows_of (db (snd run)) "audit_logs" =
    match Env.audit_append e with
    | Proceed => rows_of (db s) "audit_logs" ++ [row]
    | _ => rows_of (db s) "audit_logs"
    end ∧
  (∃ ok diag,
     trace (snd run) = trace s ++ EvInsert "audit_logs" row ok :: diag ∧
     (ok = true ↔ Env.audit_append e = Proceed) ∧
     diag = match Env.audit_append e with
            | Throw => [EvConsole "error" "Error logging admin action:"]
            | _ => []
            end).
Proof.
  intros row run. subst row run.
  unfold logAdminAction, insert_row. unfold_M.
  destruct (Env.audit_append e); simpl.
  - split; [done |]. split.
    { intros t Ht. rewrite rows_of_insert. by rewrite decide_False. }
    split; [by rewrite rows_of_insert |].
    by exists true, [].
  - repeat split; try done. by exists false, [].
  - repeat split; try done. rewrite <- app_assoc. by exists false, [EvConsole "error" "Error logging admin action:"].
Qed.

(** ** What the status of an answer tells *)

Ltac by_status :=
  intros; unfold rejection in *; simpl in *; simplify_eq; simpl in *;
  first [done | congruence].

(** Runs one of the eight handlers on every path. *)
Ltac paths e s :=
  destruct e as [auth su body now xff xri ua o1 o2 o3 o4 up];
  destruct s as [d tr]; simpl in *; run_handler.

Lemma update_error_unchanged e id a s r :
  fst (Transactions.update e id a s) = Ok r →
  NextResponse.status r ≠ 200 →
  db (snd (Transactions.update e id a s)) = db s.
Proof. paths e s; by_status. Qed.

Lemma cancel_error_unchanged e id a s r :
  fst (Transactions.cancel e id a s) = Ok r →
  NextResponse.status r ≠ 200 →
  db (snd (Transactions.cancel e id a s)) = db s.
Proof. paths e s; by_status. Qed.

Lemma gated_error_unchanged e p action s r :
  (∀ a s1 r, fst (action a s1) = Ok r → NextResponse.status r ≠ 200 →
             db (snd (action a s1)) = db s1) →
  fst (gated e p action s) = Ok r →
  NextResponse.status r ≠ 200 →
  db (snd (gated e p action s)) = db s.
Proof.
  intros H.
  destruct (gated_cases e p action s)
    as [(resp & _ & ->)
       | (a & found & diag & _ & _ & [[_ ->] | [_ ->]])]; try done.
  intros Hr Hst. by rewrite (H _ _ _ Hr Hst).
Qed.

(** X7.  Unless the audit insert rejects, a handler that answers with a
    status other than 200, or that throws, has left the store as it
    was. *)
Theorem error_answer_means_unchanged
    (h : handler) (e : Env.t) (id : string) (s : State) :
  Env.audit_append e ≠ Throw →
  (∀ r, fst (run h e id s) = Ok r → NextResponse.status r ≠ 200 →
        db (snd (run h e id s)) = db s) ∧
  (fst (run h e id s) = Thrown → db (snd (run h e id s)) = db s).
Proof.
  intros Hne. split.
  - destruct h; simpl.
    + intros r. apply gated_error_unchanged. apply update_error_unchanged.
    + intros r. apply gated_error_unchanged. apply cancel_error_unchanged.
    + paths e s; by_status.
    + paths e s; by_status.
    + paths e s; by_status.
    + paths e s; by_status.
    + paths e s; by_status.
    + paths e s; by_status.
  - destruct h; simpl.
    + unfold Transactions.PUT.
      destruct (gated_cases e ADMIN_PERMISSIONS.EDIT_TRANSACTIONS
                  (Transactions.update e id) s)
        as [(resp & _ & ->)
           | (a & found & diag & _ & _ & [[_ ->] | [_ ->]])]; try done.
      paths e s; by_status.
    + unfold Transactions.DELETE.
      destruct (gated_cases e ADMIN_PERMISSIONS.CANCEL_TRANSACTIONS
                  (Transactions.cancel e id) s)
        as [(resp & _ & ->)
           | (a & found & diag & _ & _ & [[_ ->] | [_ ->]])]; try done.
      paths e s; by_status.
    + paths e s; by_status.
    + paths e s; by_status.
    + paths e s; by_status.
    + paths e s; by_status.
    + paths e s; by_status.
    + paths e s; by_status.
Qed.

Ltac written :=
  intros; unfold rejection in *; simpl in *; simplify_eq; simpl in *;
  try done;
  grown;
  match goal with
  | |- context [EvUpdate ?t ?i ?p (Some ?r)] => exists (EvUpdate t i p (Some r))
  | |- context [EvDelete ?t ?i true] => exists (EvDelete t i true)
  end;
  (split; [| by split]);
  apply list_elem_of_In; simpl; auto 10.

Lemma update_ok_written e id a s :
  ok_written_at "escrow_transactions" id (Transactions.update e id a) s.
Proof. unfold ok_written_at. paths e s; written. Qed.

Lemma cancel_ok_written e id a s :
  ok_written_at "escrow_transactions" id (Transactions.cancel e id a) s.
Proof. unfold ok_written_at. paths e s; written. Qed.

Lemma gated_ok_written e t id p action s :
  is_Some (match Env.auth e with inr a => Some a | inl _ => None end) →
  (∀ a s1, ok_written_at t id (action a) s1) →
  ok_written_at t id (gated e p action) s.
Proof.
  intros Hauth H r.
  destruct (gated_cases e p action s)
    as [(resp & Hresp & ->)
       | (a & found & diag & _ & _ & [[_ ->] | [_ ->]])].
  - rewrite Hresp in Hauth. by destruct Hauth.
  - by_status.
  - intros Hr Hst. destruct (H _ _ _ Hr Hst) as (evs & Htr & w & Hin & Hw).
    exists ((EvSelect "profiles" a found :: diag) ++ evs).
    simpl in Htr. split; [by rewrite Htr, <- app_assoc |].
    exists w. split; [| done]. apply elem_of_app. by right.
Qed.

(** X8.  An audited handler that [requireAdmin] let through answers 200 only
    after a committed write aimed at the requested id in the table of the
    handler. *)
Theorem ok_answer_means_written
    (h : handler) (e : Env.t) (id : string) (s : State) (adminId : string) :
  audited h = true →
  Env.auth e = inr adminId →
  ok_written_at (table_of h) id (run h e id) s.
Proof.
  intros Haud Hauth. destruct h; try discriminate; simpl.
  - apply gated_ok_written; [by rewrite Hauth |]. apply update_ok_written.
  - apply gated_ok_written; [by rewrite Hauth |]. apply cancel_ok_written.
  - unfold ok_written_at. paths e s; written.
  - unfold ok_written_at. paths e s; written.
  - unfold ok_written_at. paths e s; written.
  - unfold ok_written_at. paths e s; written.
Qed.

(** ** Requests that cannot be carried out *)


Ltac declined :=
  split; [grown; reflexivity | by_status].

Lemma gated_declines e p action s a0 :
  Env.auth e = inr a0 →
  (∀ a s1, db s1 = db s → declines (action a) s1) →
  declines (gated e p action) s.
Proof.
  intros Hauth H. unfold declines in *.
  destruct (gated_cases e p action s)
    as [(resp & Hresp & ->)
       | (a & found & diag & _ & Hdiag & [[_ ->] | [_ ->]])].
  - congruence.
  - split; [| by_status].
    exists (EvSelect "profiles" a found :: diag). split; [done |].
    simpl. by apply filter_write_console.
  - destruct (H a (mkState (db s)
                     (trace s ++ EvSelect "profiles" a found :: diag)) eq_refl)
      as [(evs & Hs & Hw) Hr].
    split; [| done].
    exists ((EvSelect "profiles" a found :: diag) ++ evs).
    rewrite Hs. simpl. split; [by rewrite <- app_assoc |].
    rewrite List.filter_app, Hw, app_nil_r. simpl.
    by apply filter_write_console.
Qed.

(** X9.  When the table of an audited handler does not hold exactly one row
    with the requested id, the handler attempts no write, leaves the store
    as it was, and does not answer 200. *)
Theorem unreadable_target_never_written
    (h : handler) (e : Env.t) (id : string) (s : State) (adminId : string) :
  audited h = true →
  Env.auth e = inr adminId →
  db_select (db s) (table_of h) id = None →
  declines (run h e id) s.
Proof.
  intros Haud Hauth Hsel. destruct h; try discriminate; simpl in *.
  - eapply gated_declines; [done |]. intros a s1 Hs1.
    rewrite <- Hs1 in Hsel. clear Hauth.
    unfold declines. paths e s1; declined.
  - eapply gated_declines; [done |]. intros a s1 Hs1.
    rewrite <- Hs1 in Hsel. clear Hauth.
    unfold declines. paths e s1; declined.
  - unfold declines. paths e s; declined.
  - unfold declines. paths e s; declined.
  - unfold declines. paths e s; declined.
  - unfold declines. paths e s; declined.
Qed.

Lemma lookup_prefix_no_write a found diag ev :
  List.filter is_console diag = diag →
  ev ∈ EvSelect "profiles" a found :: diag → is_write ev = false.
Proof.
  intros Hdiag [-> | Hin]%elem_of_cons; [done |].
  apply (console_only_elem _ _ Hdiag) in Hin. by destruct ev.
Qed.


Ltac forwarded :=
  grown; split;
  [ intros ? ? Hin; pick_event Hin
  | intros ? Hin Hw; pick_event Hin; done ].

Lemma gated_forwards msg e p action s :
  (∀ a s1, forwards msg (action a) s1) →
  forwards msg (gated e p action) s.
Proof.
  intros H. unfold forwards in *.
  destruct (gated_cases e p action s)
    as [(resp & Hresp & ->)
       | (a & found & diag & _ & Hdiag & [[_ ->] | [_ ->]])].
  - exists []. rewrite app_nil_r. destruct s. split; [done |].
    split; [intros row ok Hin | intros ev Hin _]; by apply elem_of_nil in Hin.
  - exists (EvSelect "profiles" a found :: diag). split; [done |]. split.
    + intros row ok Hin. by apply (lookup_prefix_no_write _ _ _ _ Hdiag) in Hin.
    + intros ev Hin Hw.
      apply (lookup_prefix_no_write _ _ _ _ Hdiag) in Hin. congruence.
  - destruct (H a (mkState (db s)
                     (trace s ++ EvSelect "profiles" a found :: diag)))
      as (evs & Hs & Hno & Hfw).
    exists ((EvSelect "profiles" a found :: diag) ++ evs).
    rewrite Hs. split; [simpl; by rewrite <- app_assoc |]. split.
    + intros row ok [Hin | Hin]%elem_of_app; [| by eapply Hno].
      by apply (lookup_prefix_no_write _ _ _ _ Hdiag) in Hin.
    + intros ev [Hin | Hin]%elem_of_app Hw; [| by eapply Hfw].
      apply (lookup_prefix_no_write _ _ _ _ Hdiag) in Hin. congruence.
Qed.

(** X10.  When the write resolves with an error message, a handler leaves the
    store as it was and attempts no audit row; if it attempted the write
    at all, it answers 500 with that message. *)
Theorem storage_error_forwarded
    (h : handler) (e : Env.t) (id : string) (s : State) (msg : string) :
  Env.persist e = Fail msg →
  forwards msg (run h e id) s.
Proof.
  intros Hp. destruct h; simpl.
  - apply gated_forwards. intros a s1. unfold forwards. paths e s1; forwarded.
  - apply gated_forwards. intros a s1. unfold forwards. paths e s1; forwarded.
  - unfold forwards. paths e s; forwarded.
  - unfold forwards. paths e s; forwarded.
  - unfold forwards. paths e s; forwarded.
  - unfold forwards. paths e s; forwarded.
  - unfold forwards. paths e s; forwarded.
  - unfold forwards. paths e s; forwarded.
Qed.

(** ** What a request leaves alone *)

Lemma gated_db (R : DB → DB → Prop) e p action s :
  (∀ d, R d d) →
  (∀ a s1, R (db s1) (db (snd (action a s1)))) →
  R (db s) (db (snd (gated e p action s))).
Proof.
  intros Hrefl H.
  destruct (gated_cases e p action s)
    as [(resp & _ & ->)
       | (a & found & diag & _ & _ & [[_ ->] | [_ ->]])];
    [apply Hrefl .. |].
  apply (H a (mkState (db s) _)).
Qed.

Create HintDb frame.

Lemma confined_refl t d : confined t d d.
Proof. by intros t'. Qed.

Lemma confined_update t d d' i p :
  confined t d d' → confined t d (db_update d' t i p).
Proof.
  intros H t' H1 H2. rewrite rows_of_update, decide_False by done. by apply H.
Qed.

Lemma confined_delete t d d' i :
  confined t d d' → confined t d (db_delete d' t i).
Proof.
  intros H t' H1 H2. rewrite rows_of_delete, decide_False by done. by apply H.
Qed.

Lemma confined_insert t d d' r :
  confined t d d' → confined t d (db_insert d' "audit_logs" r).
Proof.
  intros H t' H1 H2. rewrite rows_of_insert, decide_False by done. by apply H.
Qed.

Lemma others_kept_refl id d : others_kept id d d.
Proof. by intros t r. Qed.

Lemma others_kept_update id d d' t p :
  others_kept id d d' → others_kept id d (db_update d' t id p).
Proof.
  intros H t' r Hin Hid. rewrite rows_of_update. case_decide; [| by apply H].
  apply list_elem_of_In, in_map_iff. exists r. rewrite Hid.
  split; [done |]. apply list_elem_of_In. by apply H.
Qed.

Lemma others_kept_delete id d d' t :
  others_kept id d d' → others_kept id d (db_delete d' t id).
Proof.
  intros H t' r Hin Hid. rewrite rows_of_delete. case_decide; [| by apply H].
  apply list_elem_of_In, filter_In. rewrite Hid.
  split; [| done]. apply list_elem_of_In. by apply H.
Qed.

Lemma others_kept_insert id d d' t r :
  others_kept id d d' → others_kept id d (db_insert d' t r).
Proof.
  intros H t' r' Hin Hid. rewrite rows_of_insert. case_decide; [| by apply H].
  apply elem_of_app. left. by apply H.
Qed.

#[local] Hint Resolve confined_refl confined_update confined_delete
  confined_insert others_kept_refl others_kept_update others_kept_delete
  others_kept_insert : frame.


Lemma run_confined h e id s :
  confined (table_of h) (db s) (db (snd (run h e id s))).
Proof.
  destruct h; simpl.
  - apply (gated_db (confined _)); [apply confined_refl |].
    intros a s1. paths e s1; auto with frame.
  - apply (gated_db (confined _)); [apply confined_refl |].
    intros a s1. paths e s1; auto with frame.
  - paths e s; auto with frame.
  - paths e s; auto with frame.
  - paths e s; auto with frame.
  - paths e s; auto with frame.
  - paths e s; auto with frame.
  - paths e s; auto with frame.
Qed.

(** X11.  A handler changes no table other than its own and [audit_logs]. *)
Theorem writes_stay_in_table
    (h : handler) (e : Env.t) (id : string) (s : State) (t : string) :
  t ≠ table_of h → t ≠ "audit_logs" →
  rows_of (db (snd (run h e id s))) t = rows_of (db s) t.
Proof. apply run_confined. Qed.

(** X12.  Every row that does not carry the requested id is still in its table
    after a handler has run. *)
Theorem other_rows_kept
    (h : handler) (e : Env.t) (id : string) (s : State) :
  others_kept id (db s) (db (snd (run h e id s))).
Proof.
  destruct h; simpl.
  - apply (gated_db (others_kept _)); [apply others_kept_refl |].
    intros a s1. paths e s1; auto with frame.
  - apply (gated_db (others_kept _)); [apply others_kept_refl |].
    intros a s1. paths e s1; auto with frame.
  - paths e s; auto with frame.
  - paths e s; auto with frame.
  - paths e s; auto with frame.
  - paths e s; auto with frame.
  - paths e s; auto with frame.
  - paths e s; auto with frame.
Qed.

(** ** Requests that are turned away *)

Lemma gated_not_thrown e p action s :
  (∀ a s1, fst (action a s1) ≠ Thrown) →
  fst (gated e p action s) ≠ Thrown.
Proof.
  intros H.
  destruct (gated_cases e p action s)
    as [(resp & _ & ->)
       | (a & found & diag & _ & _ & [[_ ->] | [_ ->]])];
    first [done | apply H].
Qed.

(** X13.  When the body of the request cannot be parsed, an update handler
    attempts no write, leaves the store as it was and does not answer 200;
    the exception escapes from no handler but the [user_profiles] one. *)
Theorem unparsable_body_never_written
    (h : handler) (e : Env.t) (id : string) (s : State) (adminId : string) :
  reads_body h = true →
  Env.auth e = inr adminId →
  Env.body e = None →
  declines (run h e id) s ∧
  (fst (run h e id s) = Thrown → h = PutUserProfile).
Proof.
  intros Hreads Hauth Hbody. destruct h; try discriminate; simpl in *.
  - split.
    + eapply gated_declines; [done |]. intros a s1 _. clear Hauth.
      unfold declines. paths e s1; declined.
    + intros Hthrown. exfalso. revert Hthrown. apply gated_not_thrown.
      intros a s1. clear Hauth. paths e s1; done.
  - split; [unfold declines; paths e s; declined |].
    paths e s; done.
  - split; [unfold declines; paths e s; declined |].
    paths e s; done.
  - split; [unfold declines; paths e s; declined | done].
Qed.

(** X14.  Whatever table the request names, the generic data handlers leave
    every table outside the allow-list as it was. *)
Theorem data_handlers_respect_allow_list
    (e : Env.t) (table id : string) (s : State) (t : string) :
  t ∉ Data.allowedTables →
  rows_of (db (snd (Data.PUT e table id s))) t = rows_of (db s) t ∧
  rows_of (db (snd (Data.DELETE e table id s))) t = rows_of (db s) t.
Proof.
  intros Ht.
  assert (t ≠ "audit_logs") as Haudit.
  { intros ->. apply Ht. unfold Data.allowedTables.
    apply list_elem_of_In. simpl. auto 10. }
  destruct (Data.allowed table) eqn:Hallowed.
  - assert (t ≠ table) as Htable.
    { intros ->. apply Ht. unfold Data.allowed in Hallowed.
      apply existsb_exists in Hallowed as (x & Hin & Heq).
      apply String.eqb_eq in Heq. subst x. by apply list_elem_of_In. }
    split.
    + by apply (run_confined (PutData table) e id s).
    + by apply (run_confined (DeleteData table) e id s).
  - unfold Data.PUT, Data.DELETE. rewrite Hallowed.
    by destruct (Env.auth e).
Qed.

(** ** Reading back what was written *)

Lemma has_id_patched p r id :
  p !! "id" = None → has_id id (patched p r) = has_id id r.
Proof. intros H. unfold has_id. by rewrite patched_keeps. Qed.

Lemma filter_map_patched id p (rows : list Row) :
  p !! "id" = None →
  List.filter (has_id id)
    (map (fun r => if has_id id r then patched p r else r) rows) =
  map (patched p) (List.filter (has_id id) rows).
Proof.
  intros Hp. induction rows as [| r rows IH]; [done |]. simpl.
  destruct (has_id id r) eqn:Hr.
  - rewrite has_id_patched, Hr by done. simpl. by rewrite IH.
  - by rewrite Hr.
Qed.

Lemma db_select_update d t id p cur :
  db_select d t id = Some cur →
  p !! "id" = None →
  db_select (db_update d t id p) t id = Some (patched p cur).
Proof.
  unfold db_select. intros Hsel Hp.
  rewrite rows_of_update, decide_True, filter_map_patched by done.
  destruct (List.filter (has_id id) (rows_of d t)) as [| x [| ? ?]];
    simpl in *; by simplify_eq.
Qed.

Lemma has_id_audit_row id a t i o n p ip ua :
  has_id id (audit_row a t i o n p ip ua) = false.
Proof. done. Qed.

Lemma db_select_insert d t r t' id :
  has_id id r = false →
  db_select (db_insert d t r) t' id = db_select d t' id.
Proof.
  intros Hr. unfold db_select. rewrite rows_of_insert.
  case_decide; [| done]. rewrite List.filter_app. simpl.
  by rewrite Hr, app_nil_r.
Qed.

Ltac reread :=
  intros; unfold rejection in *; simpl in *; simplify_eq; simpl in *;
  try done;
  match goal with
  | Hsel : db_select _ _ _ = Some ?cur
    |- context [db_update _ _ _ ?p] =>
      exists cur, p;
      assert (p !! "id" = None) as Hid
        by first [ done
                 | by rewrite finalUpdateData_lookup
                 | rewrite lookup_insert_ne by done; auto ];
      split; [done |]; split;
      [ rewrite ?db_select_insert by apply has_id_audit_row;
        by apply db_select_update
      | split; [done |];
        first [ done
              | by rewrite finalUpdateData_lookup
              | by rewrite lookup_insert_eq ] ]
  end.

Lemma gated_read_back e t id p action s a0 :
  Env.auth e = inr a0 →
  (∀ a s1, read_back e t id (action a) s1) →
  read_back e t id (gated e p action) s.
Proof.
  intros Hauth H r.
  destruct (gated_cases e p action s)
    as [(resp & Hresp & ->)
       | (a & found & diag & _ & _ & [[_ ->] | [_ ->]])].
  - congruence.
  - by_status.
  - apply (H a (mkState (db s) _)).
Qed.

(** X15.  After an updating handler has answered 200, the row is found again
    under the requested id: it is the row that was there, overridden by a
    payload without [id] whose [updated_at] is the time of the request.
    For the transaction and user updates this needs a body without
    [id]. *)
Theorem update_read_back
    (h : handler) (e : Env.t) (id : string) (s : State) (adminId : string) :
  audited h = true → deletes h = false →
  Env.auth e = inr adminId →
  keeps_id h e →
  read_back e (table_of h) id (run h e id) s.
Proof.
  intros Haud Hdel Hauth Hkeeps. destruct h; try discriminate; simpl in *.
  - eapply gated_read_back; [done |]. intros a s1. clear Hauth.
    unfold read_back. paths e s1; reread.
  - eapply gated_read_back; [done |]. intros a s1. clear Hauth.
    unfold read_back. paths e s1; reread.
  - unfold read_back. paths e s; reread.
  - unfold read_back. paths e s; reread.
  - unfold read_back. paths e s; reread.
Qed.

(** ** Requests that leave the roles alone *)

Lemma filter_map_commute (f : Row → Row) (q : Row → bool) (rows : list Row) :
  (∀ r, q (f r) = q r) →
  List.filter q (map f rows) = map f (List.filter q rows).
Proof.
  intros Hf. induction rows as [| r rows IH]; [done |]. simpl.
  rewrite Hf. destruct (q r); simpl; by rewrite IH.
Qed.

Lemma single_map (f : Row → Row) (rows : list Row) :
  single (map f rows) = f <$> single rows.
Proof. by destruct rows as [| x [| ? ?]]. Qed.

(** An update that does not mention [id] moves no row to another id. *)
Lemma db_select_update_any d t id p a :
  p !! "id" = None →
  db_select (db_update d t id p) t a =
  (fun r => if has_id id r then patched p r else r) <$> db_select d t a.
Proof.
  intros Hp. unfold db_select.
  rewrite rows_of_update, decide_True by done.
  rewrite filter_map_commute.
  - apply single_map.
  - intros r. destruct (has_id id r); [| done]. by apply has_id_patched.
Qed.

Lemma db_select_update_other d t id p t' a :
  t ≠ t' → db_select (db_update d t id p) t' a = db_select d t' a.
Proof.
  intros H. unfold db_select. by rewrite rows_of_update, decide_False.
Qed.

Lemma db_select_delete_other d t id t' a :
  t ≠ t' → db_select (db_delete d t id) t' a = db_select d t' a.
Proof.
  intros H. unfold db_select. by rewrite rows_of_delete, decide_False.
Qed.

Lemma db_select_insert_other d t r t' a :
  t ≠ t' → db_select (db_insert d t r) t' a = db_select d t' a.
Proof.
  intros H. unfold db_select. by rewrite rows_of_insert, decide_False.
Qed.

Lemma same_roles_refl d : same_roles d d.
Proof. by intros e tr tr' a. Qed.

Lemma same_roles_update d d' t id p :
  t ≠ "profiles" → same_roles d d' → same_roles d (db_update d' t id p).
Proof.
  intros Ht H e tr tr' a. rewrite <- (H e tr tr' a). unfold resolved_role.
  simpl. by rewrite db_select_update_other.
Qed.

Lemma same_roles_delete d d' t id :
  t ≠ "profiles" → same_roles d d' → same_roles d (db_delete d' t id).
Proof.
  intros Ht H e tr tr' a. rewrite <- (H e tr tr' a). unfold resolved_role.
  simpl. by rewrite db_select_delete_other.
Qed.

Lemma same_roles_insert d d' r :
  same_roles d d' → same_roles d (db_insert d' "audit_logs" r).
Proof.
  intros H e tr tr' a. rewrite <- (H e tr tr' a). unfold resolved_role.
  simpl. by rewrite db_select_insert_other.
Qed.

Lemma same_roles_deactivate d d' id now :
  same_roles d d' →
  same_roles d
    (db_update d' "profiles" id
       {[ "status" := VStr "inactive"; "updated_at" := VStr now ]}).
Proof.
  intros H e tr tr' a. rewrite <- (H e tr tr' a). unfold resolved_role.
  simpl. rewrite db_select_update_any by done.
  destruct (Env.role_lookup e); try done.
  destruct (db_select d' "profiles" a) as [row |]; [| done]. simpl.
  destruct (has_id id row); [| done]. by rewrite patched_keeps.
Qed.

#[local] Hint Resolve same_roles_refl same_roles_insert same_roles_deactivate
  : frame.
#[local] Hint Extern 1 (same_roles _ (db_update _ _ _ _)) =>
  apply same_roles_update; [done |] : frame.
#[local] Hint Extern 1 (same_roles _ (db_delete _ _ _)) =>
  apply same_roles_delete; [done |] : frame.

Lemma run_same_roles h e id s :
  may_change_roles h = false → same_roles (db s) (db (snd (run h e id s))).
Proof.
  intros Hh. destruct h; try discriminate; simpl in *.
  - apply (gated_db same_roles); [apply same_roles_refl |].
    intros a s1. paths e s1; auto with frame.
  - apply (gated_db same_roles); [apply same_roles_refl |].
    intros a s1. paths e s1; auto with frame.
  - paths e s; auto with frame.
  - apply String.eqb_neq in Hh. paths e s; auto with frame.
  - apply String.eqb_neq in Hh. paths e s; auto with frame.
  - paths e s; auto with frame.
  - paths e s; auto with frame.
Qed.

Lemma decision_of_role roles e s s' a p :
  resolved_role e s' a = resolved_role e s a →
  fst (hasAdminPermissionIn roles e a p s') =
  fst (hasAdminPermissionIn roles e a p s).
Proof.
  intros H. destruct (resolved_role e s a) as [r |] eqn:Hs.
  - by rewrite (hasAdminPermissionIn_resolved _ _ _ _ _ _ H),
      (hasAdminPermissionIn_resolved _ _ _ _ _ _ Hs).
  - by rewrite (hasAdminPermissionIn_unresolved _ _ _ _ _ H),
      (hasAdminPermissionIn_unresolved _ _ _ _ _ Hs).
Qed.

(** X16.  The handlers that cannot write the [role] column leave every
    decision of the guard as it was; in particular an account that has
    been deactivated is granted what it was granted before. *)
Theorem access_survives
    (h : handler) (e : Env.t) (id : string) (s : State)
    (e' : Env.t) (actor permission : string) :
  may_change_roles h = false →
  fst (hasAdminPermission e' actor permission (snd (run h e id s))) =
  fst (hasAdminPermission e' actor permission s).
Proof.
  intros Hh. apply decision_of_role.
  destruct (snd (run h e id s)) as [d' tr'] eqn:Hrun. destruct s as [d tr].
  replace d' with (db (snd (run h e id (mkState d tr)))) by by rewrite Hrun.
  by apply run_same_roles.
Qed.

(** ** Completing, then cancelling *)

Lemma update_stores e id a s r updateData :
  Env.body e = Some updateData →
  updateData !! "id" = None →
  fst (Transactions.update e id a s) = Ok r →
  NextResponse.status r = 200 →
  ∃ cur,
    db_select (db (snd (Transactions.update e id a s)))
      "escrow_transactions" id =
    Some (patched (<["updated_at" := VStr (Env.now e)]> updateData) cur).
Proof.
  intros Hbody Hid.
  assert (∀ now, <["updated_at" := VStr now]> updateData !! "id" = None)
    as Hid' by (intros now; by rewrite lookup_insert_ne).
  paths e s; intros; unfold rejection in *; simpl in *; simplify_eq;
    simpl in *; try done.
  all: eexists; rewrite ?db_select_insert by apply has_id_audit_row;
    by apply db_select_update.
Qed.

(** X17.  After an update that set the status to [completed] has answered
    200, a cancel request on the same transaction, whoever sends it,
    attempts no write, leaves the store as it was and does not answer
    200. *)
Theorem completed_then_cancel_refused
    (e e' : Env.t) (id : string) (s : State) (adminId actor : string)
    (updateData : Row) (r : NextResponse.t) :
  Env.auth e = inr adminId →
  Env.body e = Some updateData →
  updateData !! "id" = None →
  updateData !! "status" = Some (VStr "completed") →
  fst (Transactions.PUT e id s) = Ok r →
  NextResponse.status r = 200 →
  Env.auth e' = inr actor →
  declines (Transactions.DELETE e' id) (snd (Transactions.PUT e id s)).
Proof.
  intros Hauth Hbody Hid Hst Hr H200 Hauth'.
  assert (∃ cur,
    db_select (db (snd (Transactions.PUT e id s))) "escrow_transactions" id =
    Some (patched (<["updated_at" := VStr (Env.now e)]> updateData) cur))
    as [cur Hsel].
  { unfold Transactions.PUT in *.
    destruct (gated_cases e ADMIN_PERMISSIONS.EDIT_TRANSACTIONS
                (Transactions.update e id) s)
      as [(resp & Hresp & Hrun)
         | (a & found & diag & _ & _ & [[_ Hrun] | [_ Hrun]])];
      rewrite Hrun in *.
    - congruence.
    - revert Hr H200. by_status.
    - by eapply update_stores. }
  eapply gated_declines; [done |]. intros a s1 Hs1. rewrite <- Hs1 in Hsel.
  assert (patched (<["updated_at" := VStr (Env.now e)]> updateData) cur
            !! "status" = Some (VStr "completed")) as Hcompleted.
  { unfold patched. apply lookup_union_Some_l.
    by rewrite lookup_insert_ne. }
  revert Hsel Hcompleted.
  generalize (patched (<["updated_at" := VStr (Env.now e)]> updateData) cur).
  clear. intros row Hsel Hcompleted. unfold declines.
  paths e' s1; try absurd_status; declined.
Qed.

(** ** A cancellation that goes through *)

Lemma cancel_goes_through e id s adminId cur :
  Env.auth e = inr adminId →
  fst (hasAdminPermission e adminId ADMIN_PERMISSIONS.CANCEL_TRANSACTIONS s)
    = Ok true →
  Env.entity_read e = Proceed →
  Env.persist e = Proceed →
  db_select (db s) "escrow_transactions" id = Some cur →
  is_str "completed" (cur !! "status") = false →
  ∃ new,
    fst (Transactions.DELETE e id s) =
      Ok (NextResponse.json
            (VObj {[ "message" := VStr "Transaction cancelled successfully";
                     "transaction" := VObj new ]}) 200) ∧
    db_select (db (snd (Transactions.DELETE e id s)))
      "escrow_transactions" id = Some new ∧
    new !! "status" = Some (VStr "cancelled") ∧
    new !! "updated_at" = Some (VStr (Env.now e)) ∧
    (∀ k, k ≠ "status" → k ≠ "updated_at" → new !! k = cur !! k).
Proof.
  intros Hauth Hperm Hread Hpersist Hsel Hst.
  unfold Transactions.DELETE.
  destruct (gated_cases e ADMIN_PERMISSIONS.CANCEL_TRANSACTIONS
              (Transactions.cancel e id) s)
    as [(resp & Hresp & Hrun)
       | (a & found & diag & Ha & _ & [[Hno Hrun] | [_ Hrun]])];
    rewrite Hrun; [congruence | congruence |].
  clear Hrun Hperm Hauth Ha.
  exists (patched {[ "status" := VStr "cancelled";
                     "updated_at" := VStr (Env.now e) ]} cur).
  split; [| split; [| split; [| split]]];
    [| | by apply lookup_union_Some_l | by apply lookup_union_Some_l |].
  - destruct e as [auth su body now xff xri ua o1 o2 o3 o4 up]. simpl in *.
    subst. unfold Transactions.cancel, logAdminAction, select_single,
      update_single, insert_row, respond, refuse. unfold_M. simpl.
    rewrite Hsel. simpl. rewrite project_all, Hst. simpl. rewrite Hsel.
    simpl. by destruct o4.
  - destruct e as [auth su body now xff xri ua o1 o2 o3 o4 up]. simpl in *.
    subst. unfold Transactions.cancel, logAdminAction, select_single,
      update_single, insert_row, respond, refuse. unfold_M. simpl.
    rewrite Hsel. simpl. rewrite project_all, Hst. simpl. rewrite Hsel.
    simpl.
    destruct o4; simpl;
      rewrite ?db_select_insert by apply has_id_audit_row;
      by apply db_select_update.
  - intros k H1 H2. apply patched_keeps.
    rewrite lookup_insert_ne by done. by rewrite lookup_singleton_ne.
Qed.

(** X18.  A cancel request of an actor who holds [CANCEL_TRANSACTIONS], on a
    transaction that is not completed and with the storage reads and writes
    going through, answers 200 with the updated row, whatever becomes of
    the audit insert.  The row is then found under the same id with the
    status [cancelled] and the time of the request in [updated_at], every
    other column being as before. *)
Theorem cancel_succeeds
    (e : Env.t) (id : string) (s : State) (adminId : string) (cur : Row) :
  Env.auth e = inr adminId →
  fst (hasAdminPermission e adminId ADMIN_PERMISSIONS.CANCEL_TRANSACTIONS s)
    = Ok true →
  Env.entity_read e = Proceed →
  Env.persist e = Proceed →
  db_select (db s) "escrow_transactions" id = Some cur →
  is_str "completed" (cur !! "status") = false →
  ∃ new,
    fst (Transactions.DELETE e id s) =
      Ok (NextResponse.json
            (VObj {[ "message" := VStr "Transaction cancelled successfully";
                     "transaction" := VObj new ]}) 200) ∧
    db_select (db (snd (Transactions.DELETE e id s)))
      "escrow_transactions" id = Some new ∧
    new !! "status" = Some (VStr "cancelled") ∧
    new !! "updated_at" = Some (VStr (Env.now e)) ∧
    (∀ k, k ≠ "status" → k ≠ "updated_at" → new !! k = cur !! k).
Proof. apply cancel_goes_through. Qed.

(** ** Looking at a transaction *)

Ltac unfold_more :=
  unfold TransactionDetails.details, TransactionCreate.POST,
    VerificationSubmit.POST, VerificationSubmit.property_of,
    select_transaction, insert_returning in *.

Ltac paths_more e s :=
  destruct e as [auth su body now xff xri ua o1 o2 o3 o4 up];
  destruct s as [d tr]; simpl in *; unfold_more; run_handler.

Lemma details_read_only joined e id a s :
  ∃ evs, snd (TransactionDetails.details joined e id a s) =
           mkState (db s) (trace s ++ evs) ∧
         List.filter is_write evs = [].
Proof. paths_more e s; by grown. Qed.

Lemma gated_read_only e p action s :
  (∀ a s1, ∃ evs, snd (action a s1) = mkState (db s1) (trace s1 ++ evs) ∧
                  List.filter is_write evs = []) →
  ∃ evs, snd (gated e p action s) = mkState (db s) (trace s ++ evs) ∧
         List.filter is_write evs = [].
Proof.
  intros H.
  destruct (gated_cases e p action s)
    as [(resp & Hresp & ->)
       | (a & found & diag & _ & Hdiag & [[_ ->] | [_ ->]])].
  - exists []. destruct s. by rewrite app_nil_r.
  - exists (EvSelect "profiles" a found :: diag). split; [done |].
    simpl. by apply filter_write_console.
  - destruct (H a (mkState (db s)
                     (trace s ++ EvSelect "profiles" a found :: diag)))
      as (evs & Hs & Hw).
    exists ((EvSelect "profiles" a found :: diag) ++ evs).
    rewrite Hs. simpl. split; [by rewrite <- app_assoc |].
    rewrite List.filter_app, Hw, app_nil_r. simpl.
    by apply filter_write_console.
Qed.

Lemma details_ok joined e id a s r :
  fst (TransactionDetails.details joined e id a s) = Ok r →
  NextResponse.status r = 200 →
  ∃ cur,
    Env.entity_read e = Proceed ∧
    db_select (db s) "escrow_transactions" id = Some cur ∧
    NextResponse.body r = VObj (joined (db s) cur).
Proof.
  paths_more e s; intros Hr H200;
    unfold rejection in *; simpl in *; simplify_eq; simpl in *; try done.
  by eexists.
Qed.

(** X19.  The details handler attempts no write and leaves the store as it
    was.  It answers 200 only when the actor holds [VIEW_TRANSACTIONS],
    the read went through and exactly one transaction carries the id; the
    body is then that row as the select returned it. *)
Theorem details_only_reads
    (joined : DB → Row → Row) (e : Env.t) (id : string) (s : State)
    (adminId : string) :
  Env.auth e = inr adminId →
  (∃ evs, snd (TransactionDetails.GET joined e id s) =
            mkState (db s) (trace s ++ evs) ∧
          List.filter is_write evs = []) ∧
  (∀ r, fst (TransactionDetails.GET joined e id s) = Ok r →
        NextResponse.status r = 200 →
        ∃ cur,
          Env.entity_read e = Proceed ∧
          fst (hasAdminPermission e adminId
                 ADMIN_PERMISSIONS.VIEW_TRANSACTIONS s) = Ok true ∧
          db_select (db s) "escrow_transactions" id = Some cur ∧
          NextResponse.body r = VObj (joined (db s) cur)).
Proof.
  intros Hauth. split.
  - apply gated_read_only. intros a s1. apply details_read_only.
  - intros r. unfold TransactionDetails.GET.
    destruct (gated_cases e ADMIN_PERMISSIONS.VIEW_TRANSACTIONS
                (TransactionDetails.details joined e id) s)
      as [(resp & Hresp & ->)
         | (a & found & diag & Ha & _ & [[_ ->] | [Hyes ->]])].
    + congruence.
    + by_status.
    + assert (a = adminId) as -> by congruence.
      intros Hr H200.
      destruct (details_ok joined e id adminId _ r Hr H200)
        as (cur & Hread & Hsel & Hbody).
      by exists cur.
Qed.

Lemma moderator_decision e s a r p :
  resolved_role e s a = Some r →
  toUpperCase e r = "MODERATOR" →
  fst (hasAdminPermission e a p s) = Ok (role_grants MODERATOR p).
Proof.
  intros Hr Hup. unfold hasAdminPermission.
  rewrite (hasAdminPermissionIn_resolved _ _ _ _ _ _ Hr), Hup.
  destruct (String.eqb r "admin") eqn:Heq; [| done].
  apply String.eqb_eq in Heq. subst. vm_compute in Hup. discriminate Hup.
Qed.

(** X20.  An actor whose role spells [moderator], in whatever case, gets 403
    from the update and from the cancellation of a transaction, with the
    store left as it was, and gets the transaction from the details
    handler when it exists and the read goes through. *)
Theorem moderator_reads_only
    (joined : DB → Row → Row) (e : Env.t) (id : string) (s : State)
    (actor role : string) (cur : Row) :
  Env.auth e = inr actor →
  resolved_role e s actor = Some role →
  toUpperCase e role = "MODERATOR" →
  (fst (Transactions.PUT e id s) =
     Ok (rejection "Insufficient permissions" 403) ∧
   db (snd (Transactions.PUT e id s)) = db s) ∧
  (fst (Transactions.DELETE e id s) =
     Ok (rejection "Insufficient permissions" 403) ∧
   db (snd (Transactions.DELETE e id s)) = db s) ∧
  (Env.entity_read e = Proceed →
   db_select (db s) "escrow_transactions" id = Some cur →
   fst (TransactionDetails.GET joined e id s) =
     Ok (NextResponse.json (VObj (joined (db s) cur)) 200)).
Proof.
  intros Hauth Hrole Hup. repeat split.
  - unfold Transactions.PUT.
    destruct (gated_cases e ADMIN_PERMISSIONS.EDIT_TRANSACTIONS
                (Transactions.update e id) s)
      as [(resp & Hresp & ->)
         | (a & found & diag & Ha & _ & [[_ ->] | [Hyes _]])];
      [congruence | done |].
    assert (a = actor) as -> by congruence.
    by rewrite (moderator_decision _ _ _ _ _ Hrole Hup) in Hyes.
  - unfold Transactions.PUT.
    destruct (gated_cases e ADMIN_PERMISSIONS.EDIT_TRANSACTIONS
                (Transactions.update e id) s)
      as [(resp & Hresp & ->)
         | (a & found & diag & Ha & _ & [[_ ->] | [Hyes _]])];
      [congruence | done |].
    assert (a = actor) as -> by congruence.
    by rewrite (moderator_decision _ _ _ _ _ Hrole Hup) in Hyes.
  - unfold Transactions.DELETE.
    destruct (gated_cases e ADMIN_PERMISSIONS.CANCEL_TRANSACTIONS
                (Transactions.cancel e id) s)
      as [(resp & Hresp & ->)
         | (a & found & diag & Ha & _ & [[_ ->] | [Hyes _]])];
      [congruence | done |].
    assert (a = actor) as -> by congruence.
    by rewrite (moderator_decision _ _ _ _ _ Hrole Hup) in Hyes.
  - unfold Transactions.DELETE.
    destruct (gated_cases e ADMIN_PERMISSIONS.CANCEL_TRANSACTIONS
                (Transactions.cancel e id) s)
      as [(resp & Hresp & ->)
         | (a & found & diag & Ha & _ & [[_ ->] | [Hyes _]])];
      [congruence | done |].
    assert (a = actor) as -> by congruence.
    by rewrite (moderator_decision _ _ _ _ _ Hrole Hup) in Hyes.
  - intros Hread Hsel. unfold TransactionDetails.GET.
    destruct (gated_cases e ADMIN_PERMISSIONS.VIEW_TRANSACTIONS
                (TransactionDetails.details joined e id) s)
      as [(resp & Hresp & ->)
         | (a & found & diag & Ha & _ & [[Hno _] | [_ ->]])];
      [congruence | |].
    + assert (a = actor) as -> by congruence.
      by rewrite (moderator_decision _ _ _ _ _ Hrole Hup) in Hno.
    + clear Hauth Hrole Ha.
      destruct e as [auth su body now xff xri ua o1 o2 o3 o4 up]. simpl in *.
      subst. unfold TransactionDetails.details, select_transaction, respond.
      unfold_M. simpl. by rewrite Hsel.
Qed.

(** ** Creating a transaction *)


Lemma with_field_ne k v (r : Row) k' :
  k' ≠ k → with_field k v r !! k' = r !! k'.
Proof.
  intros H. unfold with_field. destruct v; [| done].
  by rewrite lookup_insert_ne.
Qed.

Lemma record_fixed e user body :
  let buyer := is_str "Buyer" (body !! "role") in
  let row := TransactionCreate.record e user body in
  row !! "status" = Some (VStr "pending") ∧
  row !! "buyer_id" = Some (if buyer then VStr user else VNull) ∧
  row !! "seller_id" = Some (if buyer then VNull else VStr user) ∧
  row !! "created_at" = Some (VStr (Env.now e)) ∧
  row !! "id" = None.
Proof.
  unfold TransactionCreate.record. cbv zeta.
  rewrite !with_field_ne by done.
  repeat split;
    repeat first [ by rewrite lookup_insert_eq
                 | by rewrite lookup_singleton_eq
                 | by rewrite lookup_singleton_ne
                 | rewrite lookup_insert_ne by done ].
Qed.

Lemma created_row e user body generated :
  let buyer := is_str "Buyer" (body !! "role") in
  let row := patched (TransactionCreate.record e user body) generated in
  row !! "status" = Some (VStr "pending") ∧
  row !! "buyer_id" = Some (if buyer then VStr user else VNull) ∧
  row !! "seller_id" = Some (if buyer then VNull else VStr user) ∧
  row !! "created_at" = Some (VStr (Env.now e)) ∧
  row !! "id" = generated !! "id".
Proof.
  destruct (record_fixed e user body) as (H1 & H2 & H3 & H4 & H5).
  cbv zeta. unfold patched.
  repeat split; try by apply lookup_union_Some_l.
  by apply lookup_union_r.
Qed.

Lemma create_outcome user e generated s :
  ∃ r, fst (TransactionCreate.POST (inr user) e generated s) = Ok r ∧
    (NextResponse.status r = 500 ∧
     db (snd (TransactionCreate.POST (inr user) e generated s)) = db s
     ∨
     ∃ body row,
       Env.body e = Some body ∧
       r = NextResponse.json
             (VObj {[ "success" := VBool true;
                      "transaction" := VObj row ]}) 200 ∧
       db (snd (TransactionCreate.POST (inr user) e generated s)) =
         db_insert (db s) "escrow_transactions" row ∧
       row !! "status" = Some (VStr "pending") ∧
       row !! "buyer_id" =
         Some (if is_str "Buyer" (body !! "role")
               then VStr user else VNull) ∧
       row !! "seller_id" =
         Some (if is_str "Buyer" (body !! "role")
               then VNull else VStr user) ∧
       row !! "created_at" = Some (VStr (Env.now e)) ∧
       row !! "id" = generated !! "id").
Proof.
  paths_more e s; eexists; (split; [reflexivity |]);
    try (left; by split).
  right. eexists _, _. split; [done |]. split; [done |]. split; [done |].
  apply created_row.
Qed.

Lemma create_row_stored user e generated s r :
  fst (TransactionCreate.POST (inr user) e generated s) = Ok r →
  NextResponse.status r = 200 →
  ∃ row,
    db (snd (TransactionCreate.POST (inr user) e generated s)) =
      db_insert (db s) "escrow_transactions" row ∧
    row !! "status" = Some (VStr "pending") ∧
    row !! "id" = generated !! "id".
Proof.
  destruct (create_outcome user e generated s)
    as (r' & -> & [[H500 _] | (body & row & _ & -> & Hdb & Hst & H)]).
  - intros [= <-] H200. by rewrite H500 in H200.
  - intros _ _. exists row. by destruct H as (_ & _ & _ & Hid).
Qed.

(** X21.  For an authenticated user the creation handler always answers.
    Either it answers 500 and the store is as it was, or it answers 200
    with the one row it appended to [escrow_transactions]: the status of
    that row is [pending] whatever the body says, the user is its buyer
    when the body has the role [Buyer] and its seller otherwise, the other
    party is [null], and [created_at] is the time of the request. *)
Theorem create_transaction_pending
    (user : string) (e : Env.t) (generated : Row) (s : State) :
  ∃ r, fst (TransactionCreate.POST (inr user) e generated s) = Ok r ∧
    (NextResponse.status r = 500 ∧
     db (snd (TransactionCreate.POST (inr user) e generated s)) = db s
     ∨
     ∃ body row,
       Env.body e = Some body ∧
       r = NextResponse.json
             (VObj {[ "success" := VBool true;
                      "transaction" := VObj row ]}) 200 ∧
       db (snd (TransactionCreate.POST (inr user) e generated s)) =
         db_insert (db s) "escrow_transactions" row ∧
       row !! "status" = Some (VStr "pending") ∧
       row !! "buyer_id" =
         Some (if is_str "Buyer" (body !! "role")
               then VStr user else VNull) ∧
       row !! "seller_id" =
         Some (if is_str "Buyer" (body !! "role")
               then VNull else VStr user) ∧
       row !! "created_at" = Some (VStr (Env.now e)) ∧
       row !! "id" = generated !! "id").
Proof. apply create_outcome. Qed.

Lemma db_select_insert_new d t row id :
  (∀ r, r ∈ rows_of d t → has_id id r = false) →
  has_id id row = true →
  db_select (db_insert d t row) t id = Some row.
Proof.
  intros Hnone Hrow. unfold db_select.
  rewrite rows_of_insert, decide_True, List.filter_app by done. simpl.
  rewrite Hrow.
  replace (List.filter (has_id id) (rows_of d t)) with (@nil Row); [done |].
  symmetry. induction (rows_of d t) as [| r rows IH]; [done |]. simpl.
  rewrite (Hnone r) by apply list_elem_of_here. apply IH.
  intros r' Hin. apply Hnone. by apply list_elem_of_further.
Qed.

(** X22.  A transaction that has just been created under an id that no other
    transaction carries can be cancelled: the cancel request of an actor
    who holds [CANCEL_TRANSACTIONS] answers 200 and leaves it with the
    status [cancelled]. *)
Theorem created_then_cancelled
    (user : string) (e : Env.t) (generated : Row) (s : State)
    (r : NextResponse.t) (id : string) (e' : Env.t) (adminId : string) :
  let s1 := snd (TransactionCreate.POST (inr user) e generated s) in
  generated !! "id" = Some (VStr id) →
  (∀ row, row ∈ rows_of (db s) "escrow_transactions" →
          has_id id row = false) →
  fst (TransactionCreate.POST (inr user) e generated s) = Ok r →
  NextResponse.status r = 200 →
  Env.auth e' = inr adminId →
  fst (hasAdminPermission e' adminId
         ADMIN_PERMISSIONS.CANCEL_TRANSACTIONS s1) = Ok true →
  Env.entity_read e' = Proceed →
  Env.persist e' = Proceed →
  ∃ r', fst (Transactions.DELETE e' id s1) = Ok r' ∧
        NextResponse.status r' = 200 ∧
        status_of (db (snd (Transactions.DELETE e' id s1)))
          "escrow_transactions" id = Some (VStr "cancelled").
Proof.
  intros s1 Hid Hfresh Hr H200 Hauth Hperm Hread Hpersist.
  destruct (create_row_stored user e generated s r Hr H200)
    as (row & Hdb & Hst & Hrow).
  assert (db_select (db s1) "escrow_transactions" id = Some row) as Hsel.
  { subst s1. rewrite Hdb. apply db_select_insert_new; [done |].
    unfold has_id. rewrite Hrow, Hid. simpl. by rewrite String.eqb_refl. }
  assert (is_str "completed" (row !! "status") = false) as Hnot
    by by rewrite Hst.
  destruct (cancel_goes_through e' id s1 adminId row
              Hauth Hperm Hread Hpersist Hsel Hnot)
    as (new & Hanswer & Hsel' & Hcancelled & _).
  eexists. split; [done |]. split; [done |].
  unfold status_of. by rewrite Hsel'.
Qed.

(** ** Submitting a verification *)

Lemma with_field_dom k v (r : Row) k' :
  is_Some (with_field k v r !! k') → k' = k ∨ is_Some (r !! k').
Proof.
  unfold with_field. destruct v; [| by right].
  destruct (decide (k' = k)) as [-> | Hne]; [by left |].
  rewrite lookup_insert_ne by done. by right.
Qed.

Lemma verification_record_columns body details k :
  is_Some (VerificationSubmit.record body details !! k) →
  k ∈ verification_columns.
Proof.
  unfold VerificationSubmit.record, verification_columns. intros H.
  repeat (apply with_field_dom in H as [-> | H];
          [apply list_elem_of_In; simpl; tauto |]).
  destruct (decide (k = "verification_status")) as [-> | Hne].
  - apply list_elem_of_here.
  - rewrite lookup_singleton_ne in H by done. by destruct H.
Qed.

Lemma verification_record_pending body details :
  VerificationSubmit.record body details !! "verification_status" =
  Some (VStr "pending").
Proof.
  unfold VerificationSubmit.record. rewrite !with_field_ne by done.
  by rewrite lookup_singleton_eq.
Qed.

(** X23.  For an authenticated user the submission handler always answers.
    Either it answers 500 and the store is as it was, or it answers 200
    after updating the rows of [user_profiles] that carry the id of the
    user, with a payload that sets [verification_status] to [pending] and
    holds no column outside [verification_columns]. *)
Theorem verification_submit_scope (user : string) (e : Env.t) (s : State) :
  ∃ r, fst (VerificationSubmit.POST (inr user) e s) = Ok r ∧
    (NextResponse.status r = 500 ∧
     db (snd (VerificationSubmit.POST (inr user) e s)) = db s
     ∨
     r = NextResponse.json (VObj {[ "success" := VBool true ]}) 200 ∧
     ∃ payload,
       db (snd (VerificationSubmit.POST (inr user) e s)) =
         db_update (db s) "user_profiles" user payload ∧
       payload !! "verification_status" = Some (VStr "pending") ∧
       (∀ k, is_Some (payload !! k) → k ∈ verification_columns)).
Proof.
  destruct e as [auth su body now xff xri ua o1 o2 o3 o4 up].
  destruct s as [d tr]. simpl.
  unfold VerificationSubmit.POST, VerificationSubmit.property_of, req_json,
    update_all, respond, refuse.
  unfold_M.
  destruct body as [body |]; simpl;
    [destruct (body !! "personalDetails") as [[] |]; simpl;
     destruct o3; simpl |];
    eexists; (split; [reflexivity |]); try (left; by split).
  all: right; split; [done |]; eexists; split; [reflexivity |];
    split; [apply verification_record_pending
           | apply verification_record_columns].
Qed.

(** X24.  A submission whose body has no [personalDetails], or [null] there,
    is answered with 500, Internal Server Error: the store is as it was
    and the log gains the diagnostic only, no storage call. *)
Theorem verification_needs_details
    (user : string) (e : Env.t) (s : State) (body : Row) :
  Env.body e = Some body →
  body !! "personalDetails" = None ∨
  body !! "personalDetails" = Some VNull →
  VerificationSubmit.POST (inr user) e s =
    (Ok (rejection "Internal Server Error" 500),
     mkState (db s)
       (trace s ++ [EvConsole "error" "Verification submit error:"])).
Proof.
  intros Hbody Hmissing.
  destruct e as [auth su b now xff xri ua o1 o2 o3 o4 up].
  destruct s as [d tr]. simpl in *. subst b.
  unfold VerificationSubmit.POST, VerificationSubmit.property_of, req_json,
    refuse.
  unfold_M. simpl. by destruct Hmissing as [-> | ->].
Qed.

(** ** Who an audit row is attributed to *)

Ltac attributed :=
  intros Htr Hin; added_in Htr; pick_event Hin; done.

Lemma update_attribution e id a s evs row ok :
  trace (snd (Transactions.update e id a s)) = trace s ++ evs →
  EvInsert "audit_logs" row ok ∈ evs →
  row !! "performed_by" = Some (VStr a) ∧
  row !! "action" = Some (VStr "UPDATE_TRANSACTION") ∧
  row !! "entity_type" = Some (VStr "transaction").
Proof. paths e s; attributed. Qed.

Lemma cancel_attribution e id a s evs row ok :
  trace (snd (Transactions.cancel e id a s)) = trace s ++ evs →
  EvInsert "audit_logs" row ok ∈ evs →
  row !! "performed_by" = Some (VStr a) ∧
  row !! "action" = Some (VStr "CANCEL_TRANSACTION") ∧
  row !! "entity_type" = Some (VStr "transaction").
Proof. paths e s; attributed. Qed.

(** X25.  Every audit row that an audited handler attempts to insert names in
    [performed_by] the admin that [requireAdmin] returned, in the
    transaction handlers, and the user of the session in the others; its
    [action] and [entity_type] are those of the handler. *)
Theorem audit_row_attribution
    (h : handler) (e : Env.t) (id : string) (s : State) (adminId : string)
    (evs : list event) (row : Row) (ok : bool) :
  audited h = true →
  Env.auth e = inr adminId →
  trace (snd (run h e id s)) = trace s ++ evs →
  EvInsert "audit_logs" row ok ∈ evs →
  row !! "performed_by" = VStr <$> performer h e adminId ∧
  row !! "action" = Some (VStr (audit_label h).1) ∧
  row !! "entity_type" = Some (VStr (audit_label h).2).
Proof.
  intros Haud Hauth. destruct h; try discriminate; simpl.
  - intros Htr Hin.
    destruct (gated_write _ _ _ _ _ _ (update_grows e id) Htr Hin eq_refl)
      as (a & pre & evs1 & Ha & _ & Hrun & -> & Htr1 & Hin1).
    assert (a = adminId) as -> by congruence.
    exact (update_attribution e id adminId _ evs1 row ok Htr1 Hin1).
  - intros Htr Hin.
    destruct (gated_write _ _ _ _ _ _ (cancel_grows e id) Htr Hin eq_refl)
      as (a & pre & evs1 & Ha & _ & Hrun & -> & Htr1 & Hin1).
    assert (a = adminId) as -> by congruence.
    exact (cancel_attribution e id adminId _ evs1 row ok Htr1 Hin1).
  - clear Hauth. paths e s; attributed.
  - clear Hauth. paths e s; attributed.
  - clear Hauth. paths e s; attributed.
  - clear Hauth. paths e s; attributed.
Qed.

(** ** The roles of the catalog *)

(** X26.  The roles of the catalog are nested: what [MODERATOR] grants,
    [ADMIN] grants, what [ADMIN] grants, [SUPER_ADMIN] grants, and
    [SUPER_ADMIN] grants exactly the values of [ADMIN_PERMISSIONS]. *)
Theorem roles_nested (permission : string) :
  (role_grants MODERATOR permission = true →
   role_grants ADMIN permission = true) ∧
  (role_grants ADMIN permission = true →
   role_grants SUPER_ADMIN permission = true) ∧
  (role_grants SUPER_ADMIN permission = true ↔
   permission ∈ ADMIN_PERMISSIONS.values).
Proof.
  rewrite !role_grants_elem. repeat split.
  - intros H. apply list_elem_of_In in H. apply list_elem_of_In.
    simpl in *. intuition.
  - intros H. apply list_elem_of_In in H. apply list_elem_of_In.
    simpl in *. intuition.
  - intros H. apply list_elem_of_In in H. apply list_elem_of_In.
    simpl in *. intuition.
  - intros H. apply list_elem_of_In in H. apply list_elem_of_In.
    simpl in *. intuition.
Qed.

(** ** [user_profiles] requests on an id that no row carries *)

Lemma filter_none {A} (f : A → bool) (l : list A) :
  (∀ x, x ∈ l → f x = false) → List.filter f l = [].
Proof.
  induction l as [| x l IH]; [done |]. intros H. simpl.
  rewrite (H x) by apply list_elem_of_here. apply IH.
  intros y Hy. apply H. by apply list_elem_of_further.
Qed.

Lemma rows_of_update_none d t id p t' :
  (∀ r, r ∈ rows_of d t → has_id id r = false) →
  rows_of (db_update d t id p) t' = rows_of d t'.
Proof.
  intros H. rewrite rows_of_update. case_decide; [subst t' | done].
  induction (rows_of d t) as [| r rows IH]; [done |]. simpl.
  rewrite (H r) by apply list_elem_of_here. f_equal. apply IH.
  intros r' Hin. apply H. by apply list_elem_of_further.
Qed.

Lemma rows_of_delete_none d t id t' :
  (∀ r, r ∈ rows_of d t → has_id id r = false) →
  rows_of (db_delete d t id) t' = rows_of d t'.
Proof.
  intros H. rewrite rows_of_delete. case_decide; [subst t' | done].
  induction (rows_of d t) as [| r rows IH]; [done |]. simpl.
  rewrite (H r) by apply list_elem_of_here. simpl. f_equal. apply IH.
  intros r' Hin. apply H. by apply list_elem_of_further.
Qed.

(** X27.  The [user_profiles] handlers do not look for the row first: when no
    row carries the id and the storage call goes through, the update
    answers 200 with an empty array, the deletion answers 200 with
    [success], and every table is as it was. *)
Theorem user_profiles_unknown_id_accepted
    (e : Env.t) (id : string) (s : State) (adminId : string)
    (updates : Row) :
  Env.auth e = inr adminId →
  Env.persist e = Proceed →
  Env.body e = Some updates →
  (∀ row, row ∈ rows_of (db s) "user_profiles" → has_id id row = false) →
  (fst (UserProfiles.PUT e id s) = Ok (NextResponse.json (VArr []) 200) ∧
   ∀ t, rows_of (db (snd (UserProfiles.PUT e id s))) t = rows_of (db s) t) ∧
  (fst (UserProfiles.DELETE e id s) =
     Ok (NextResponse.json (VObj {[ "success" := VBool true ]}) 200) ∧
   ∀ t, rows_of (db (snd (UserProfiles.DELETE e id s))) t =
        rows_of (db s) t).
Proof.
  intros Hauth Hpersist Hbody Hnone.
  destruct e as [auth su body now xff xri ua o1 o2 o3 o4 up].
  destruct s as [d tr]. simpl in *. subst.
  unfold UserProfiles.PUT, UserProfiles.DELETE, req_json, update_all,
    delete_rows, respond, refuse.
  unfold_M. simpl. repeat split.
  - by rewrite filter_none.
  - intros t. by apply rows_of_update_none.
  - intros t. by apply rows_of_delete_none.
Qed.

(** ** Concrete runs of the further properties *)

Lemma guard_agrees_with_listing_witness :
  ∃ b l,
    fst (hasAdminPermission (request "m1" None Proceed) "m1"
           ADMIN_PERMISSIONS.EDIT_USERS start) = Ok b ∧
    fst (getAdminPermissions (request "m1" None Proceed) "m1" start) = Ok l ∧
    (b = true ↔ ADMIN_PERMISSIONS.EDIT_USERS ∈ l).
Proof.
  apply (guard_agrees_with_listing (request "m1" None Proceed) start "m1"
           ADMIN_PERMISSIONS.EDIT_USERS).
  vm_compute. discriminate.
Defined.

Lemma role_spelling_witness :
  let capitalised :=
    mkState {[ "profiles" :=
                 [ ({[ "id" := VStr "m2"; "role" := VStr "Moderator" ]}
                    : Row) ] ]} [] in
  fst (hasAdminPermission (request "m1" None Proceed) "m1"
         ADMIN_PERMISSIONS.VIEW_USERS start) =
  fst (hasAdminPermission (request "m2" None Proceed) "m2"
         ADMIN_PERMISSIONS.VIEW_USERS capitalised).
Proof.
  intros capitalised.
  apply (role_spelling (request "m1" None Proceed)
           (request "m2" None Proceed) start capitalised "m1" "m2"
           "moderator" "Moderator" ADMIN_PERMISSIONS.VIEW_USERS);
    first [discriminate | vm_compute; reflexivity].
Defined.

Lemma describe_verb_noun_witness :
  describe "edit_users" =
    AdminPermission.mk "edit_users" "EDIT USERS" "Permission to edit users"
      "users" "edit".
Proof.
  apply (describe_verb_noun "edit" "users" "");
    first [reflexivity | discriminate].
Defined.

Lemma error_answer_means_unchanged_witness :
  db (snd (run DeleteTransaction (request "a1" None Proceed) "t1" start))
  = store.
Proof.
  destruct (error_answer_means_unchanged DeleteTransaction
              (request "a1" None Proceed) "t1" start) as [H _];
    [discriminate |].
  apply (H (rejection "Cannot cancel completed transaction" 400));
    [vm_compute; reflexivity | discriminate].
Defined.

Lemma ok_answer_means_written_witness :
  ok_written_at "profiles" "m1"
    (run DeleteUser (request "a1" None Proceed) "m1") start.
Proof.
  apply (ok_answer_means_written DeleteUser (request "a1" None Proceed)
           "m1" start "a1"); reflexivity.
Defined.

Lemma unreadable_target_never_written_witness :
  declines (run DeleteUser (request "a1" None Proceed) "nobody") start.
Proof.
  apply (unreadable_target_never_written DeleteUser
           (request "a1" None Proceed) "nobody" start "a1");
    vm_compute; reflexivity.
Defined.

Lemma storage_error_forwarded_witness :
  let e := Env.mk (inr "a1") (Some "a1") None clock None None None
             Proceed Proceed (Fail "connection lost") Proceed
             toUpperCase_ascii in
  forwards "connection lost" (run DeleteUser e "m1") start.
Proof.
  intros e. apply (storage_error_forwarded DeleteUser e "m1" start).
  reflexivity.
Defined.

Lemma unparsable_body_never_written_witness :
  declines (run PutUser (request "a1" None Proceed) "m1") start.
Proof.
  apply (unparsable_body_never_written PutUser (request "a1" None Proceed)
           "m1" start "a1"); reflexivity.
Defined.

Lemma data_handlers_respect_allow_list_witness :
  let e := request "a1" (Some {[ "verification_status" := VStr "approved" ]})
             Proceed in
  rows_of (db (snd (Data.PUT e "user_profiles" "u1" start))) "user_profiles" =
    [user_profile] ∧
  rows_of (db (snd (Data.DELETE e "profiles" "m1" start))) "user_profiles" =
    [user_profile].
Proof.
  intros e. split.
  - apply (data_handlers_respect_allow_list e "user_profiles" "u1" start
             "user_profiles").
    vm_compute. intros H. repeat (apply elem_of_cons in H as [H | H];
      [discriminate H |]). by apply elem_of_nil in H.
  - apply (data_handlers_respect_allow_list e "profiles" "m1" start
             "user_profiles").
    vm_compute. intros H. repeat (apply elem_of_cons in H as [H | H];
      [discriminate H |]). by apply elem_of_nil in H.
Defined.

Lemma update_read_back_witness :
  let e := request "a1" (Some {[ "status" := VStr "disputed" ]}) Proceed in
  read_back e "escrow_transactions" "t3" (run PutTransaction e "t3") start.
Proof.
  intros e. apply (update_read_back PutTransaction e "t3" start "a1");
    try reflexivity.
  intros updateData [= <-]. reflexivity.
Defined.

Lemma access_survives_witness :
  fst (hasAdminPermission (request "m1" None Proceed) "m1"
         ADMIN_PERMISSIONS.EDIT_USERS
         (snd (run DeleteUser (request "a1" None Proceed) "m1" start))) =
  fst (hasAdminPermission (request "m1" None Proceed) "m1"
         ADMIN_PERMISSIONS.EDIT_USERS start).
Proof.
  apply (access_survives DeleteUser (request "a1" None Proceed) "m1" start).
  reflexivity.
Defined.

Lemma completed_then_cancel_refused_witness :
  let e := request "a1" (Some {[ "status" := VStr "completed" ]}) Proceed in
  declines (Transactions.DELETE (request "a1" None Proceed) "t3")
    (snd (Transactions.PUT e "t3" start)).
Proof.
  intros e.
  apply (completed_then_cancel_refused e (request "a1" None Proceed) "t3"
           start "a1" "a1" {[ "status" := VStr "completed" ]}
           (NextResponse.json
              (VObj (<["status" := VStr "completed"]>
                       (<["updated_at" := VStr clock]> pending_transaction)))
              200));
    vm_compute; reflexivity.
Defined.

Lemma cancel_succeeds_witness :
  ∃ new,
    fst (Transactions.DELETE (request "a1" None Proceed) "t3" start) =
      Ok (NextResponse.json
            (VObj {[ "message" := VStr "Transaction cancelled successfully";
                     "transaction" := VObj new ]}) 200) ∧
    db_select (db (snd (Transactions.DELETE (request "a1" None Proceed)
                          "t3" start)))
      "escrow_transactions" "t3" = Some new ∧
    new !! "status" = Some (VStr "cancelled") ∧
    new !! "updated_at" = Some (VStr clock) ∧
    (∀ k, k ≠ "status" → k ≠ "updated_at" →
          new !! k = pending_transaction !! k).
Proof.
  apply (cancel_succeeds (request "a1" None Proceed) "t3" start "a1"
           pending_transaction); vm_compute; reflexivity.
Defined.

Lemma details_only_reads_witness :
  ∃ evs, snd (TransactionDetails.GET (fun _ row => row)
                (request "m1" None Proceed) "t1" start)
         = mkState store ([] ++ evs) ∧
         List.filter is_write evs = [].
Proof.
  apply (details_only_reads (fun _ row => row) (request "m1" None Proceed)
           "t1" start "m1").
  reflexivity.
Defined.

Lemma moderator_reads_only_witness :
  let e := request "m1" (Some {[ "status" := VStr "completed" ]}) Proceed in
  fst (Transactions.PUT e "t3" start) =
    Ok (rejection "Insufficient permissions" 403) ∧
  fst (Transactions.DELETE e "t3" start) =
    Ok (rejection "Insufficient permissions" 403) ∧
  fst (TransactionDetails.GET (fun _ row => row) e "t3" start) =
    Ok (NextResponse.json (VObj pending_transaction) 200).
Proof.
  intros e.
  destruct (moderator_reads_only (fun _ row => row) e "t3" start "m1"
              "moderator" pending_transaction)
    as ([Hput _] & [Hdelete _] & Hget); [vm_compute; reflexivity .. |].
  split; [done |]. split; [done |].
  apply Hget; vm_compute; reflexivity.
Defined.



Lemma verification_needs_details_witness :
  let e := request "u1" (Some {[ "accountType" := VStr "individual" ]})
             Proceed in
  VerificationSubmit.POST (inr "u1") e start =
    (Ok (rejection "Internal Server Error" 500),
     mkState store ([] ++ [EvConsole "error" "Verification submit error:"])).
Proof.
  intros e.
  apply (verification_needs_details "u1" e start
           {[ "accountType" := VStr "individual" ]}).
  - reflexivity.
  - left. reflexivity.
Defined.

Lemma audit_row_attribution_witness :
  let e := request "a1" None Proceed in
  let row := audit_row "DEACTIVATE_USER" "user" (Some "m1")
               (VObj moderator_account)
               (VObj (patched (deactivation e) moderator_account)) "a1"
               (VStr "unknown") (VStr "unknown") in
  row !! "performed_by" = Some (VStr "a1") ∧
  row !! "action" = Some (VStr "DEACTIVATE_USER") ∧
  row !! "entity_type" = Some (VStr "user").
Proof.
  intros e row.
  apply (audit_row_attribution DeleteUser e "m1" start "a1"
           [ EvSelect "profiles" "m1" (Some moderator_account);
             EvUpdate "profiles" "m1" (deactivation e)
               (Some (patched (deactivation e) moderator_account));
             EvInsert "audit_logs" row true ] row true);
    try (vm_compute; reflexivity).
  apply list_elem_of_In. simpl. tauto.
Defined.

Lemma user_profiles_unknown_id_accepted_witness :
  let e := request "a1" (Some {[ "verification_status" := VStr "approved" ]})
             Proceed in
  fst (UserProfiles.PUT e "u9" start) = Ok (NextResponse.json (VArr []) 200) ∧
  fst (UserProfiles.DELETE e "u9" start) =
    Ok (NextResponse.json (VObj {[ "success" := VBool true ]}) 200).
Proof.
  intros e.
  destruct (user_profiles_unknown_id_accepted e "u9" start "a1"
              {[ "verification_status" := VStr "approved" ]})
    as [[Hput _] [Hdelete _]]; try reflexivity; [| by split].
  assert (forallb (fun row => negb (has_id "u9" row))
            (rows_of (db start) "user_profiles") = true) as Hfresh
    by (vm_compute; reflexivity).
  intros row Hin%list_elem_of_In.
  apply (proj1 (forallb_forall _ _) Hfresh) in Hin.
  by destruct (has_id "u9" row).
Defined.

Lemma listing_within_catalog_witness :
  fst (getAdminPermissions (request "a1" None Proceed) "nobody" start) = Ok [].
Proof.
  destruct (listing_within_catalog (request "a1" None Proceed) start "nobody")
    as (l & Hl & _ & Hnone).
  rewrite Hl. f_equal. apply Hnone. vm_compute. reflexivity.
Defined.

Lemma requireAdminPermission_warns_on_denial_witness :
  ∃ b evs,
    requireAdminPermission (request "m1" None Proceed) "m1"
      ADMIN_PERMISSIONS.EDIT_TRANSACTIONS start =
      (Ok b, mkState store ([] ++ evs)) ∧
    fst (hasAdminPermission (request "m1" None Proceed) "m1"
           ADMIN_PERMISSIONS.EDIT_TRANSACTIONS start) = Ok b ∧
    List.filter is_write evs = [] ∧
    (EvConsole "warn"
       ("Admin " +:+ "m1" +:+ " attempted to access " +:+
        ADMIN_PERMISSIONS.EDIT_TRANSACTIONS +:+ " without permission")
       ∈ evs ↔ b = false).
Proof.
  apply (requireAdminPermission_warns_on_denial (request "m1" None Proceed)
           start "m1" ADMIN_PERMISSIONS.EDIT_TRANSACTIONS).
Defined.

Lemma logAdminAction_contained_witness :
  fst (logAdminAction (request "a1" None Throw) "a1" "CANCEL_TRANSACTION"
         "transaction" (Some "t3") VNull VNull VNull VNull start) = Ok tt.
Proof.
  apply (logAdminAction_contained (request "a1" None Throw) "a1"
           "CANCEL_TRANSACTION" "transaction" (Some "t3") VNull VNull VNull
           VNull start).
Defined.

Lemma writes_stay_in_table_witness :
  rows_of (db (snd (run DeleteUser (request "a1" None Proceed) "m1" start)))
    "escrow_transactions" =
  rows_of store "escrow_transactions".
Proof.
  apply (writes_stay_in_table DeleteUser (request "a1" None Proceed) "m1"
           start); discriminate.
Defined.

Lemma other_rows_kept_witness :
  admin_account ∈
  rows_of (db (snd (run DeleteUser (request "a1" None Proceed) "m1" start)))
    "profiles".
Proof.
  apply (other_rows_kept DeleteUser (request "a1" None Proceed) "m1" start).
  - apply list_elem_of_In. vm_compute. tauto.
  - vm_compute. reflexivity.
Defined.

Lemma create_transaction_pending_witness :
  let e := request "u1" (Some {[ "role" := VStr "Buyer";
                                 "status" := VStr "completed" ]}) Proceed in
  ∃ r, fst (TransactionCreate.POST (inr "u1") e
              {[ "id" := VStr "t4" ]} start) = Ok r.
Proof.
  intros e.
  destruct (create_transaction_pending "u1" e {[ "id" := VStr "t4" ]} start)
    as (r & Hr & _).
  by exists r.
Defined.

Lemma verification_submit_scope_witness :
  let e := request "u1" (Some {[ "personalDetails" := VObj ∅;
                                 "role" := VStr "admin" ]}) Proceed in
  ∃ r, fst (VerificationSubmit.POST (inr "u1") e start) = Ok r.
Proof.
  intros e.
  destruct (verification_submit_scope "u1" e start) as (r & Hr & _).
  by exists r.
Defined.

Lemma roles_nested_witness :
  role_grants ADMIN ADMIN_PERMISSIONS.VIEW_USERS = true.
Proof.
  apply (proj1 (roles_nested ADMIN_PERMISSIONS.VIEW_USERS)). reflexivity.
Defined.

Lemma created_then_cancelled_witness :
  let e := request "u1" (Some {[ "title" := VStr "Laptop";
                                 "role" := VStr "Buyer" ]}) Proceed in
  let s1 := snd (TransactionCreate.POST (inr "u1") e
                   {[ "id" := VStr "t4" ]} start) in
  ∃ r', fst (Transactions.DELETE (request "a1" None Proceed) "t4" s1)
        = Ok r' ∧
        NextResponse.status r' = 200 ∧
        status_of (db (snd (Transactions.DELETE (request "a1" None Proceed)
                              "t4" s1)))
          "escrow_transactions" "t4" = Some (VStr "cancelled").
Proof.
  intros e s1.
  apply (created_then_cancelled "u1" e {[ "id" := VStr "t4" ]} start
           (NextResponse.json
              (VObj {[ "success" := VBool true;
                       "transaction" :=
                         VObj (patched (TransactionCreate.record e "u1"
                                 {[ "title" := VStr "Laptop";
                                    "role" := VStr "Buyer" ]})
                                 {[ "id" := VStr "t4" ]}) ]}) 200)
           "t4" (request "a1" None Proceed) "a1").
  all: try (vm_compute; reflexivity).
  assert (forallb (fun row => negb (has_id "t4" row))
            (rows_of (db start) "escrow_transactions") = true) as Hfresh
    by (vm_compute; reflexivity).
  intros row Hin%list_elem_of_In.
  apply (proj1 (forallb_forall _ _) Hfresh) in Hin.
  by destruct (has_id "t4" row).
Defined.
